(** * Bluestack blob storage engine: a shallow embedding of [FileBlobStore]

    The development follows the Go package [internal/services/blob]:

    - [os] and [filepath] model the parts of Go's standard library the
      store calls (a POSIX file tree without symbolic links, permissions
      or resource exhaustion, addressed by paths the kernel accepts, see
      [os.representable]);
    - the store itself ([FileBlobStore], [CreateContainer], [PutBlob], ...)
      is translated function by function;
    - the HTTP adapter of [blob_service.go] and the package
      [internal/config] follow, each handler and function in turn;
    - the properties of the specification are stated and proved after the
      definitions, and further properties of the code after them.

    Time stamps ([ModTime], [CreatedAt], [ModifiedAt], [LastModified]) depend
    on the wall clock and are left out of every record; the read-write mutex
    is not represented: every operation holds it from entry to exit, so the
    operations are modelled as atomic steps on a [world]. *)

From stdpp Require Import gmap strings list sorting.
From Stdlib Require Import Ascii ZArith.
From Stdlib.Init Require Import Byte.

(** A resolved absolute path: the components below the root directory. *)
Abbreviation path := (list string).

(** Go's [(value, error)] results. *)
Inductive result (E A : Type) : Type :=
| Ok (a : A)
| Fail (e : E).
Arguments Ok {E A} a.
Arguments Fail {E A} e.

(** ** Package [os] *)
Module os.

Inductive node : Type :=
| File (content : list Byte.byte)
| Dir.

(** The file tree: every existing path with what lies there. *)
Abbreviation fs := (gmap path node).

Inductive errno : Type := ENOENT | ENOTDIR | EISDIR | ENOTEMPTY.

(** [*os.PathError] *)
Record PathError : Type := mkPathError { Op : string; Path : path; Err : errno }.

(** [os.FileInfo], without [ModTime]. *)
Record FileInfo : Type := mkFileInfo { IsDir : bool; Size : Z }.

Definition info_of (n : node) : FileInfo :=
  match n with
  | File content => mkFileInfo false (Z.of_nat (length content))
  | Dir => mkFileInfo true 0
  end.

Definition IsNotExist (e : PathError) : bool :=
  match Err e with ENOENT => true | _ => false end.

Definition is_file (d : fs) (p : path) : bool :=
  match d !! p with Some (File _) => true | _ => false end.

Definition is_dir (d : fs) (p : path) : bool :=
  match d !! p with Some Dir => true | _ => false end.

(** The proper prefixes of a path, the root first. *)
Fixpoint ancestors (p : path) : list path :=
  match p with
  | [] => []
  | s :: p' => [] :: map (cons s) (ancestors p')
  end.

(** All prefixes of a path, the path itself last. *)
Definition prefixes (p : path) : list path := ancestors p ++ [p].

(** Some proper prefix of [p] is a regular file: resolving [p] stops with
    ENOTDIR. *)
Definition blocked (d : fs) (p : path) : bool := existsb (is_file d) (ancestors p).

(** Path resolution, shared by stat(2), open(2), unlink(2) and rmdir(2). *)
Definition resolve (d : fs) (p : path) : result errno node :=
  if blocked d p then Fail ENOTDIR
  else match d !! p with
       | Some n => Ok n
       | None => Fail ENOENT
       end.

(** Something exists strictly below [p]. *)
Definition has_children (d : fs) (p : path) : bool :=
  existsb (λ kv : path * node, bool_decide (p `prefix_of` kv.1 ∧ kv.1 ≠ p)) (map_to_list d).

(** [os.Stat] *)
Definition Stat (d : fs) (name : path) : result PathError FileInfo :=
  match resolve d name with
  | Ok n => Ok (info_of n)
  | Fail e => Fail (mkPathError "stat" name e)
  end.

(** [os.Lstat]: the tree has no symbolic links. *)
Definition Lstat (d : fs) (name : path) : result PathError FileInfo :=
  match resolve d name with
  | Ok n => Ok (info_of n)
  | Fail e => Fail (mkPathError "lstat" name e)
  end.

(** [os.MkdirAll]: succeeds on an existing directory, fails where a prefix
    of the path is a regular file, and creates what is missing otherwise.
    Nothing is created when it fails. *)
Definition MkdirAll (d : fs) (name : path) : result PathError fs :=
  match find (is_file d) (prefixes name) with
  | Some q => Fail (mkPathError "mkdir" q ENOTDIR)
  | None => Ok (foldr (λ q acc, <[q := Dir]> acc) d (prefixes name))
  end.

(** [os.WriteFile]: open with O_WRONLY|O_CREATE|O_TRUNC, write, close. *)
Definition WriteFile (d : fs) (name : path) (data : list Byte.byte) : result PathError fs :=
  if blocked d name then Fail (mkPathError "open" name ENOTDIR)
  else match d !! name with
       | Some Dir => Fail (mkPathError "open" name EISDIR)
       | Some (File _) => Ok (<[name := File data]> d)
       | None =>
           if is_dir d (removelast name)
           then Ok (<[name := File data]> d)
           else Fail (mkPathError "open" name ENOENT)
       end.

(** [os.ReadFile] *)
Definition ReadFile (d : fs) (name : path) : result PathError (list Byte.byte) :=
  match resolve d name with
  | Fail e => Fail (mkPathError "open" name e)
  | Ok Dir => Fail (mkPathError "read" name EISDIR)
  | Ok (File content) => Ok content
  end.

(** [os.Remove]: unlink(2), then rmdir(2); removes a file or an empty
    directory. *)
Definition Remove (d : fs) (name : path) : result PathError fs :=
  match resolve d name with
  | Fail e => Fail (mkPathError "remove" name e)
  | Ok (File _) => Ok (delete name d)
  | Ok Dir =>
      if has_children d name
      then Fail (mkPathError "remove" name ENOTEMPTY)
      else Ok (delete name d)
  end.

(** [os.RemoveAll]: removes [name] and everything below it; a missing path
    is no error, a regular file above it is (the Unix implementation hands
    on the ENOTDIR of unlinkat(2)).  This is the call on a path below the
    root whose text Go accepts: Go refuses a path that cleans to [.] with
    EINVAL, and neither the root nor [..] can be removed.  The statements
    that promise a removal are made for paths strictly below the base
    directory of the store, which are of neither sort. *)
Definition RemoveAll (d : fs) (name : path) : result PathError fs :=
  if blocked d name then Fail (mkPathError "unlinkat" name ENOTDIR)
  else Ok (filter (λ kv : path * node, ¬ name `prefix_of` kv.1) d).

Definition errno_text (e : errno) : string :=
  match e with
  | ENOENT => "no such file or directory"
  | ENOTDIR => "not a directory"
  | EISDIR => "is a directory"
  | ENOTEMPTY => "directory not empty"
  end.

Definition path_text (p : path) : string := "/" +:+ String.concat "/" p.




(** The [Error] method of [PathError]. *)
Definition Error (e : PathError) : string :=
  Op e +:+ " " +:+ path_text (Path e) +:+ ": " +:+ errno_text (Err e).

(** The environment of the process and [os.Getenv]: the empty string for
    a variable that is not set. *)
Definition Getenv (env : gmap string string) (key : string) : string :=
  default "" (env !! key).

End os.

(** ** Package [path/filepath] (Unix) *)
Module filepath.

(** The components of a path string, cut at every separator. *)
Fixpoint split_sep (s : string) : list string :=
  match s with
  | EmptyString => [EmptyString]
  | String c s' =>
      if Ascii.eqb c "/" then EmptyString :: split_sep s'
      else match split_sep s' with
           | [] => [String c EmptyString]
           | h :: t => String c h :: t
           end
  end.

(** One step of [Clean] on a rooted path: empty and [.] components are
    dropped, [..] removes the component before it (and is dropped at the
    root), any other component is appended. *)
Definition push (stack : path) (elem : string) : path :=
  if decide (elem = "") then stack
  else if decide (elem = ".") then stack
  else if decide (elem = "..") then removelast stack
  else stack ++ [elem].

Definition Clean_onto (stack : path) (elem : string) : path :=
  foldl push stack (split_sep elem).

(** [filepath.Join(root, elems...)] for a rooted, cleaned [root]: the
    elements are joined by separators and the result is cleaned. *)
Definition Join (root : path) (elems : list string) : path :=
  foldl Clean_onto root elems.

(** [filepath.Dir] *)
Definition Dir (p : path) : path := removelast p.

Fixpoint common_prefix (p q : path) : nat :=
  match p, q with
  | a :: p', b :: q' => if decide (a = b) then S (common_prefix p' q') else 0
  | _, _ => 0
  end.

(** [filepath.Rel] between two rooted, cleaned paths (it cannot fail
    there). *)
Definition Rel (basepath targpath : path) : string :=
  let k := common_prefix basepath targpath in
  match (replicate (length basepath - k) ".." ++ drop k targpath)%list with
  | [] => "."
  | segs => String.concat "/" segs
  end.

(** [filepath.ToSlash]: the separator already is a slash. *)
Definition ToSlash (s : string) : string := s.

(** [filepath.HasPrefix]: [strings.HasPrefix]. *)
Definition HasPrefix (p prefix : string) : bool := String.prefix prefix p.

(** Lexical order on paths, component by component. *)
Fixpoint path_leb (p q : path) : bool :=
  match p, q with
  | [], _ => true
  | _ :: _, [] => false
  | a :: p', b :: q' =>
      match String.compare a b with
      | Lt => true
      | Gt => false
      | Eq => path_leb p' q'
      end
  end.

(** What [Walk] visits: [root] and everything below it, in lexical
    order. *)
Definition walk_order (d : os.fs) (root : path) : list (path * os.node) :=
  merge_sort (λ x y : path * os.node, path_leb x.1 y.1)
    (filter (λ kv : path * os.node, root `prefix_of` kv.1) (map_to_list d)).

(** What a [WalkFunc] returns: [nil], [filepath.SkipAll] or an error. *)
Inductive signal : Type :=
| Continue
| SkipAll
| Stop (err : os.PathError).

Section Walk.
(** [A] is the state the closure captures and updates; [fn] gets the path
    and either the [FileInfo] or the error of [Lstat]. *)
Context {A : Type}.
Variable fn : A → path → result os.PathError os.FileInfo → A * signal.

(** The calls of the closure, one for each entry of the walk, until it
    returns [SkipAll] or an error. *)
Fixpoint walk_loop (acc : A) (todo : list (path * os.node)) : A * option os.PathError :=
  match todo with
  | [] => (acc, None)
  | (p, n) :: rest =>
      match fn acc p (Ok (os.info_of n)) with
      | (acc', Continue) => walk_loop acc' rest
      | (acc', SkipAll) => (acc', None)
      | (acc', Stop err) => (acc', Some err)
      end
  end.

(** [filepath.Walk]: when [Lstat] of the root fails the closure is called
    once, with the error; [SkipAll] ends the walk without error. *)
Definition Walk (d : os.fs) (root : path) (acc : A) : A * option os.PathError :=
  match os.Lstat d root with
  | Fail err =>
      match fn acc root (Fail err) with
      | (acc', Stop err') => (acc', Some err')
      | (acc', _) => (acc', None)
      end
  | Ok _ => walk_loop acc (walk_order d root)
  end.
End Walk.

End filepath.

(** ** Package [blob]: the data model *)

(** [Blob], without [CreatedAt] and [ModifiedAt]. *)
Module Blob.
Record t : Type := mk {
  Name : string;
  Container : string;
  Account : string;
  Content : list Byte.byte;
  ContentType : string;
  Size : Z;
  Metadata : gmap string string
}.
End Blob.

(** [BlobInfo], without [LastModified]. *)
Module BlobInfo.
Record t : Type := mk {
  Name : string;
  ContentType : string;
  Size : Z;
  Metadata : gmap string string
}.
End BlobInfo.

(** The errors the store returns, one constructor for each shape of
    [fmt.Errorf] call in the store: the three messages built from a name,
    an [os] error wrapped behind a message ([%w]), and the [os] error that
    [ListBlobs] hands on from [filepath.Walk] as it is. *)
Inductive error : Type :=
| ContainerAlreadyExists (containerName : string)
| ContainerDoesNotExist (containerName : string)
| BlobDoesNotExist (blobName : string)
| Wrapped (msg : string) (err : os.PathError)
| Unwrapped (err : os.PathError).

(** The [Error] method: the message text. *)
Definition Error (e : error) : string :=
  match e with
  | ContainerAlreadyExists containerName => "container " +:+ containerName +:+ " already exists"
  | ContainerDoesNotExist containerName => "container " +:+ containerName +:+ " does not exist"
  | BlobDoesNotExist blobName => "blob " +:+ blobName +:+ " does not exist"
  | Wrapped msg err => msg +:+ ": " +:+ os.Error err
  | Unwrapped err => os.Error err
  end.

(** The error kinds of the specification. The store has no kind of its
    own: a kind is read off the place the error is made at. *)
Inductive ErrorKind : Type := InvalidArgument | AlreadyExists | NotFound | IOError | Internal.

Definition kind (e : error) : ErrorKind :=
  match e with
  | ContainerAlreadyExists _ => AlreadyExists
  | ContainerDoesNotExist _ => NotFound
  | BlobDoesNotExist _ => NotFound
  | Wrapped msg _ => if decide (msg = "failed to stat blob") then Internal else IOError
  | Unwrapped _ => IOError
  end.

(** ** Package [blob]: the store *)

(** [FileBlobStore]: [containers] is the in-memory index, keyed by
    account/container. *)
Record FileBlobStore : Type := mkStore {
  baseDir : path;
  containers : gmap string bool
}.

(** What an operation can see and change: the store and the disk. *)
Record world : Type := mkWorld {
  store : FileBlobStore;
  disk : os.fs
}.

(** Reading a Go [map[string]bool]: a missing key reads as [false]. *)
Definition index (m : gmap string bool) (key : string) : bool := default false (m !! key).

(** [NewFileBlobStore]; [baseDir] is the resolved location of the data
    directory. *)
Definition NewFileBlobStore (d : os.fs) (baseDir : path) : result error world :=
  let blobDir := filepath.Join baseDir ["blob"] in
  match os.MkdirAll d blobDir with
  | Fail err => Fail (Wrapped "failed to create blob directory" err)
  | Ok d' => Ok (mkWorld (mkStore blobDir ∅) d')
  end.

Definition containerPath (s : FileBlobStore) (account containerName : string) : path :=
  filepath.Join (baseDir s) [account; containerName].

Definition blobPath (s : FileBlobStore) (account containerName blobName : string) : path :=
  filepath.Join (containerPath s account containerName) [blobName].

Definition containerKey (account containerName : string) : string :=
  account +:+ "/" +:+ containerName.

Definition CreateContainer (w : world) (account containerName : string) : world * option error :=
  let s := store w in
  let key := containerKey account containerName in
  if index (containers s) key then (w, Some (ContainerAlreadyExists containerName))
  else
    let path := containerPath s account containerName in
    match os.MkdirAll (disk w) path with
    | Fail err => (w, Some (Wrapped "failed to create container directory" err))
    | Ok d => (mkWorld (mkStore (baseDir s) (<[key := true]> (containers s))) d, None)
    end.

Definition DeleteContainer (w : world) (account containerName : string) : world * option error :=
  let s := store w in
  let key := containerKey account containerName in
  if negb (index (containers s) key) then (w, Some (ContainerDoesNotExist containerName))
  else
    let path := containerPath s account containerName in
    match os.RemoveAll (disk w) path with
    | Fail err => (w, Some (Wrapped "failed to delete container directory" err))
    | Ok d => (mkWorld (mkStore (baseDir s) (delete key (containers s))) d, None)
    end.

Definition ContainerExists (w : world) (account containerName : string) : bool * option error :=
  let key := containerKey account containerName in
  (index (containers (store w)) key, None).

Definition PutBlob (w : world) (account containerName blobName : string)
    (content : list Byte.byte) (contentType : string) (metadata : gmap string string)
    : world * option error :=
  let s := store w in
  (* Ensure container exists *)
  let key := containerKey account containerName in
  let ensured : result error world :=
    if negb (index (containers s) key) then
      let path := containerPath s account containerName in
      match os.MkdirAll (disk w) path with
      | Fail err => Fail (Wrapped "failed to ensure container directory" err)
      | Ok d => Ok (mkWorld (mkStore (baseDir s) (<[key := true]> (containers s))) d)
      end
    else Ok w in
  match ensured with
  | Fail e => (w, Some e)
  | Ok w1 =>
      (* Write blob file *)
      let blobPath := blobPath s account containerName blobName in
      let blobDir := filepath.Dir blobPath in
      match os.MkdirAll (disk w1) blobDir with
      | Fail err => (w1, Some (Wrapped "failed to create blob directory" err))
      | Ok d2 =>
          match os.WriteFile d2 blobPath content with
          | Fail err => (mkWorld (store w1) d2, Some (Wrapped "failed to write blob" err))
          | Ok d3 => (mkWorld (store w1) d3, None)
          end
      end
  end.

Definition GetBlob (w : world) (account containerName blobName : string) : result error Blob.t :=
  let blobPath := blobPath (store w) account containerName blobName in
  match os.ReadFile (disk w) blobPath with
  | Fail err =>
      if os.IsNotExist err then Fail (BlobDoesNotExist blobName)
      else Fail (Wrapped "failed to read blob" err)
  | Ok content =>
      match os.Stat (disk w) blobPath with
      | Fail err => Fail (Wrapped "failed to stat blob" err)
      | Ok info =>
          Ok (Blob.mk blobName containerName account content
                "application/octet-stream" (os.Size info) ∅)
      end
  end.

Definition DeleteBlob (w : world) (account containerName blobName : string) : world * option error :=
  let blobPath := blobPath (store w) account containerName blobName in
  match os.Remove (disk w) blobPath with
  | Fail err =>
      if os.IsNotExist err then (w, Some (BlobDoesNotExist blobName))
      else (w, Some (Wrapped "failed to delete blob" err))
  | Ok d => (mkWorld (store w) d, None)
  end.

(** The closure [ListBlobs] passes to [filepath.Walk]; [results] is the
    slice it appends to. *)
Definition list_visit (containerPath : path) (prefix : string) (maxResults : Z)
    (results : list BlobInfo.t) (p : path) (entry : result os.PathError os.FileInfo)
    : list BlobInfo.t * filepath.signal :=
  match entry with
  | Fail err => (results, filepath.Stop err)
  | Ok info =>
      if os.IsDir info then (results, filepath.Continue) (* Skip directories *)
      else
        (* Get relative blob name *)
        let relPath := filepath.Rel containerPath p in
        let blobName := filepath.ToSlash relPath in
        (* Apply prefix filter *)
        if negb (String.eqb prefix "") && negb (filepath.HasPrefix blobName prefix)
        then (results, filepath.Continue)
        (* Apply max results limit *)
        else if (0 <? maxResults)%Z && (maxResults <=? Z.of_nat (length results))%Z
        then (results, filepath.SkipAll)
        else (results ++ [BlobInfo.mk blobName "application/octet-stream" (os.Size info) ∅],
              filepath.Continue)
  end.

Definition ListBlobs (w : world) (account containerName prefix : string) (maxResults : Z)
    : list BlobInfo.t * option error :=
  let containerPath := containerPath (store w) account containerName in
  let missing :=
    match os.Stat (disk w) containerPath with
    | Fail err => os.IsNotExist err
    | Ok _ => false
    end in
  if missing then ([], Some (ContainerDoesNotExist containerName))
  else
    let '(results, err) :=
      filepath.Walk (list_visit containerPath prefix maxResults) (disk w) containerPath [] in
    (results, Unwrapped <$> err).

(** ** Sequences of store operations *)

(** One call of the [BlobStore] interface. *)
Inductive call : Type :=
| CallCreateContainer (account containerName : string)
| CallDeleteContainer (account containerName : string)
| CallContainerExists (account containerName : string)
| CallPutBlob (account containerName blobName : string) (content : list Byte.byte)
    (contentType : string) (metadata : gmap string string)
| CallGetBlob (account containerName blobName : string)
| CallDeleteBlob (account containerName blobName : string)
| CallListBlobs (account containerName prefix : string) (maxResults : Z).

(** The world a call leaves behind, whether it fails or not. *)
Definition exec (w : world) (op : call) : world :=
  match op with
  | CallCreateContainer account containerName => (CreateContainer w account containerName).1
  | CallDeleteContainer account containerName => (DeleteContainer w account containerName).1
  | CallContainerExists _ _ => w
  | CallPutBlob account containerName blobName content contentType metadata =>
      (PutBlob w account containerName blobName content contentType metadata).1
  | CallGetBlob _ _ _ => w
  | CallDeleteBlob account containerName blobName => (DeleteBlob w account containerName blobName).1
  | CallListBlobs _ _ _ _ => w
  end.

Definition run (w : world) (ops : list call) : world := foldl exec w ops.

(** A path component that [Clean] keeps as it is. *)
Definition plain (seg : string) : bool :=
  negb (String.eqb seg "") && negb (String.eqb seg ".") && negb (String.eqb seg "..").

(** An account or container name that is one plain path component. *)
Definition valid_name (s : string) : bool :=
  bool_decide (filepath.split_sep s = [s]) && plain s.

(** A blob name made of plain components separated by single slashes. *)
Definition valid_blob_name (s : string) : bool := forallb plain (filepath.split_sep s).

Definition valid_call (op : call) : bool :=
  match op with
  | CallCreateContainer a c | CallDeleteContainer a c | CallContainerExists a c =>
      valid_name a && valid_name c
  | CallPutBlob a c b _ _ _ | CallGetBlob a c b | CallDeleteBlob a c b =>
      valid_name a && valid_name c && valid_blob_name b
  | CallListBlobs a c _ _ => valid_name a && valid_name c
  end.

(** ** What a listing contains, to compare [ListBlobs] with *)

(** What [filepath.Walk] visits, kept when it is a regular file. *)
Definition file_of (kv : path * os.node) : option (path * list Byte.byte) :=
  match kv.2 with
  | os.File content => Some (kv.1, content)
  | os.Dir => None
  end.

(** The regular files at or below [root], in the order [filepath.Walk]
    meets them. *)
Definition files_below (d : os.fs) (root : path) : list (path * list Byte.byte) :=
  omap file_of (filepath.walk_order d root).

(** The blob name of the file at [q]: its path relative to [root]. *)
Definition blob_name (root q : path) : string := filepath.ToSlash (filepath.Rel root q).

(** The prefix filter: an empty prefix lets every name pass. *)
Definition passes (prefix name : string) : bool :=
  String.eqb prefix "" || filepath.HasPrefix name prefix.

(** The entry [ListBlobs] makes for a file. *)
Definition entry_of (root : path) (f : path * list Byte.byte) : BlobInfo.t :=
  BlobInfo.mk (blob_name root f.1) "application/octet-stream" (Z.of_nat (length f.2)) ∅.

Definition entry_for (root : path) (prefix : string) (f : path * list Byte.byte)
    : option BlobInfo.t :=
  if passes prefix (blob_name root f.1) then Some (entry_of root f) else None.

(** One entry for each regular file below [root] whose name passes the
    filter, in walk order. *)
Definition listing (d : os.fs) (root : path) (prefix : string) : list BlobInfo.t :=
  entry_of root <$> filter (λ f, passes prefix (blob_name root f.1)) (files_below d root).

(** The first [maxResults] elements when [maxResults] is positive, all of
    them otherwise. *)
Definition cap {A : Type} (maxResults : Z) (l : list A) : list A :=
  if (0 <? maxResults)%Z then take (Z.to_nat maxResults) l else l.

(** ** The request adapter: [BlobService]

    The handlers are modelled on a request that is already routed: the URL
    parameters chi extracted, the header and query maps, and what
    [io.ReadAll] gives for the body. A response is its status code and a
    structured payload instead of bytes on the wire; logging is left out. *)

(** Package [strings], on ASCII text. *)
Module strings.

Fixpoint Contains (s substr : string) : bool :=
  String.prefix substr s ||
  match s with
  | EmptyString => false
  | String _ s' => Contains s' substr
  end.

Definition HasPrefix (s prefix : string) : bool := String.prefix prefix s.

Definition lower (c : ascii) : ascii :=
  let n := nat_of_ascii c in
  if (65 <=? n) && (n <=? 90) then ascii_of_nat (n + 32) else c.

Fixpoint ToLower (s : string) : string :=
  match s with
  | EmptyString => EmptyString
  | String c s' => String (lower c) (ToLower s')
  end.

Definition TrimPrefix (s prefix : string) : string :=
  if HasPrefix s prefix
  then String.substring (String.length prefix) (String.length s - String.length prefix) s
  else s.

(** [strings.Split] for a separator of one byte: the pieces between the
    separators, one more than there are separators. *)
Fixpoint Split (s : string) (sep : ascii) : list string :=
  match s with
  | EmptyString => [EmptyString]
  | String c s' =>
      if Ascii.eqb c sep then EmptyString :: Split s' sep
      else match Split s' sep with
           | [] => [String c EmptyString]
           | h :: t => String c h :: t
           end
  end.

(** The white space of ASCII: tab, line feed, vertical tab, form feed,
    carriage return and space.  Go also counts U+0085, U+00A0 and the
    space characters beyond Latin-1, which are left alone here: the
    functions below are those of Go on ASCII text. *)
Definition is_space (c : ascii) : bool :=
  let n := nat_of_ascii c in
  (n =? 9) || (n =? 10) || (n =? 11) || (n =? 12) || (n =? 13) || (n =? 32).

Fixpoint trim_left (s : string) : string :=
  match s with
  | EmptyString => EmptyString
  | String c s' => if is_space c then trim_left s' else s
  end.

Fixpoint trim_right (s : string) : string :=
  match s with
  | EmptyString => EmptyString
  | String c s' =>
      match trim_right s' with
      | EmptyString => if is_space c then EmptyString else String c EmptyString
      | t => String c t
      end
  end.

(** [strings.TrimSpace] *)
Definition TrimSpace (s : string) : string := trim_right (trim_left s).

End strings.

(** Package [strconv] *)
Module strconv.

Definition digit (c : ascii) : option Z :=
  let n := Z.of_nat (nat_of_ascii c) in
  if (48 <=? n)%Z && (n <=? 57)%Z then Some (n - 48)%Z else None.

Fixpoint digits (acc : Z) (s : string) : option Z :=
  match s with
  | EmptyString => Some acc
  | String c s' =>
      match digit c with
      | Some k => digits (10 * acc + k)%Z s'
      | None => None
      end
  end.

(** [strconv.Atoi] for a 64-bit [int]; [None] stands for an error. *)
Definition Atoi (s : string) : option Z :=
  let '(negative, body) :=
    match s with
    | String c s' =>
        if Ascii.eqb c "+" then (false, s')
        else if Ascii.eqb c "-" then (true, s')
        else (false, s)
    | EmptyString => (false, s)
    end in
  if String.eqb body "" then None
  else match digits 0 body with
       | None => None
       | Some n =>
           let val := if negative then (- n)%Z else n in
           if (- 2 ^ 63 <=? val)%Z && (val <? 2 ^ 63)%Z then Some val else None
       end.

End strconv.

(** Package [net/http]: the status codes the handlers use. *)
Module http.
Definition StatusOK : Z := 200.
Definition StatusCreated : Z := 201.
Definition StatusNoContent : Z := 204.
Definition StatusBadRequest : Z := 400.
Definition StatusNotFound : Z := 404.
Definition StatusConflict : Z := 409.
Definition StatusInternalServerError : Z := 500.
End http.

Record Request : Type := mkRequest {
  URLParams : gmap string string;
  Header : gmap string (list string);
  Query : gmap string (list string);
  Body : result string (list Byte.byte)
}.

(** [chi.URLParam]: the empty string for a parameter the route lacks. *)
Definition URLParam (r : Request) (key : string) : string := default "" (URLParams r !! key).

(** The [Get] method of [http.Header] and of [url.Values]: the first value,
    or the empty string. *)
Definition Get (values : gmap string (list string)) (key : string) : string :=
  match values !! key with
  | Some (v :: _) => v
  | _ => ""
  end.

(** [BlobListResult]; [Marker] is never set. *)
Record BlobListResult : Type := mkBlobListResult {
  Blobs : list BlobInfo.t;
  Prefix : string;
  MaxResults : Z
}.

Inductive payload : Type :=
| ErrorPayload (code message : string)
| TextPayload (text : string)
| BlobPayload (blob : Blob.t)
| ListPayload (result : BlobListResult)
| NoPayload.

Record Response : Type := mkResponse { StatusCode : Z; Payload : payload }.

Definition writeError (statusCode : Z) (code message : string) : Response :=
  mkResponse statusCode (ErrorPayload code message).

Definition handleCreateContainer (w : world) (r : Request) : world * Response :=
  let account := URLParam r "account" in
  let containerName := URLParam r "container" in
  if String.eqb account "" || String.eqb containerName ""
  then (w, writeError http.StatusBadRequest "InvalidRequest"
             "Account and container name are required")
  else
    match CreateContainer w account containerName with
    | (w', Some err) =>
        if strings.Contains (Error err) "already exists"
        then (w', writeError http.StatusConflict "ContainerAlreadyExists" (Error err))
        else (w', writeError http.StatusInternalServerError "InternalError"
                    "Failed to create container")
    | (w', None) =>
        (w', mkResponse http.StatusCreated
               (TextPayload ("Container " +:+ containerName +:+ " created successfully")))
    end.

Definition handleDeleteContainer (w : world) (r : Request) : world * Response :=
  let account := URLParam r "account" in
  let containerName := URLParam r "container" in
  if String.eqb account "" || String.eqb containerName ""
  then (w, writeError http.StatusBadRequest "InvalidRequest"
             "Account and container name are required")
  else
    match DeleteContainer w account containerName with
    | (w', Some err) =>
        if strings.Contains (Error err) "does not exist"
        then (w', writeError http.StatusNotFound "ContainerNotFound" (Error err))
        else (w', writeError http.StatusInternalServerError "InternalError"
                    "Failed to delete container")
    | (w', None) => (w', mkResponse http.StatusNoContent NoPayload)
    end.

(** The metadata a request carries in its [x-ms-meta-] headers. *)
Definition requestMetadata (header : gmap string (list string)) : gmap string string :=
  map_fold (λ key values metadata,
              if strings.HasPrefix (strings.ToLower key) "x-ms-meta-" then
                let metaKey := strings.TrimPrefix (strings.ToLower key) "x-ms-meta-" in
                match values with
                | v :: _ => <[metaKey := v]> metadata
                | [] => metadata
                end
              else metadata) ∅ header.

Definition handlePutBlob (w : world) (r : Request) : world * Response :=
  let account := URLParam r "account" in
  let containerName := URLParam r "container" in
  let blobName := URLParam r "blobName" in
  if String.eqb account "" || String.eqb containerName "" || String.eqb blobName ""
  then (w, writeError http.StatusBadRequest "InvalidRequest"
             "Account, container, and blob name are required")
  else
    (* Read request body *)
    match Body r with
    | Fail _ =>
        (w, writeError http.StatusBadRequest "InvalidRequest" "Failed to read request body")
    | Ok content =>
        (* Get content type from header or default *)
        let contentType :=
          if String.eqb (Get (Header r) "Content-Type") "" then "application/octet-stream"
          else Get (Header r) "Content-Type" in
        let metadata := requestMetadata (Header r) in
        match PutBlob w account containerName blobName content contentType metadata with
        | (w', Some _) =>
            (w', writeError http.StatusInternalServerError "InternalError"
                   "Failed to upload blob")
        | (w', None) =>
            (w', mkResponse http.StatusCreated
                   (TextPayload ("Blob " +:+ blobName +:+ " uploaded successfully")))
        end
    end.

Definition handleGetBlob (w : world) (r : Request) : world * Response :=
  let account := URLParam r "account" in
  let containerName := URLParam r "container" in
  let blobName := URLParam r "blobName" in
  if String.eqb account "" || String.eqb containerName "" || String.eqb blobName ""
  then (w, writeError http.StatusBadRequest "InvalidRequest"
             "Account, container, and blob name are required")
  else
    match GetBlob w account containerName blobName with
    | Fail err =>
        if strings.Contains (Error err) "does not exist"
        then (w, writeError http.StatusNotFound "BlobNotFound" (Error err))
        else (w, writeError http.StatusInternalServerError "InternalError"
                   "Failed to retrieve blob")
    | Ok blob => (w, mkResponse http.StatusOK (BlobPayload blob))
    end.

Definition handleDeleteBlob (w : world) (r : Request) : world * Response :=
  let account := URLParam r "account" in
  let containerName := URLParam r "container" in
  let blobName := URLParam r "blobName" in
  if String.eqb account "" || String.eqb containerName "" || String.eqb blobName ""
  then (w, writeError http.StatusBadRequest "InvalidRequest"
             "Account, container, and blob name are required")
  else
    match DeleteBlob w account containerName blobName with
    | (w', Some err) =>
        if strings.Contains (Error err) "does not exist"
        then (w', writeError http.StatusNotFound "BlobNotFound" (Error err))
        else (w', writeError http.StatusInternalServerError "InternalError"
                    "Failed to delete blob")
    | (w', None) => (w', mkResponse http.StatusNoContent NoPayload)
    end.

Definition handleListBlobs (w : world) (r : Request) : world * Response :=
  let account := URLParam r "account" in
  let containerName := URLParam r "container" in
  if String.eqb account "" || String.eqb containerName ""
  then (w, writeError http.StatusBadRequest "InvalidRequest"
             "Account and container name are required")
  else
    (* Parse query parameters *)
    let prefix := Get (Query r) "prefix" in
    let maxResultsStr := Get (Query r) "maxresults" in
    let maxResults :=
      if String.eqb maxResultsStr "" then 0%Z
      else match strconv.Atoi maxResultsStr with
           | Some val => if (0 <? val)%Z then val else 0%Z
           | None => 0%Z
           end in
    match ListBlobs w account containerName prefix maxResults with
    | (_, Some err) =>
        if strings.Contains (Error err) "does not exist"
        then (w, writeError http.StatusNotFound "ContainerNotFound" (Error err))
        else (w, writeError http.StatusInternalServerError "InternalError"
                   "Failed to list blobs")
    | (blobs, None) =>
        (w, mkResponse http.StatusOK (ListPayload (mkBlobListResult blobs prefix maxResults)))
    end.

(** ** Package [config] *)
Module config.

Record Config : Type := mkConfig {
  EdgePort : Z;
  DataDir : string;
  EnabledServices : list string;
  LogLevel : string
}.

(** The services named in a comma-separated list: the pieces, trimmed,
    without the empty ones. *)
Definition enabled_of (servicesStr : string) : list string :=
  foldl (λ enabled s,
           let s := strings.TrimSpace s in
           if negb (String.eqb s "") then enabled ++ [s] else enabled)
        [] (strings.Split servicesStr ",").

(** [Load], on the environment it reads. *)
Definition Load (env : gmap string string) : Config :=
  let cfg := mkConfig 4566 "./data" ["blob"] "info" in
  (* Load EDGE_PORT *)
  let cfg :=
    let portStr := os.Getenv env "EDGE_PORT" in
    if negb (String.eqb portStr "") then
      match strconv.Atoi portStr with
      | Some port =>
          if (0 <? port)%Z && (port <? 65536)%Z
          then mkConfig port (DataDir cfg) (EnabledServices cfg) (LogLevel cfg)
          else cfg
      | None => cfg
      end
    else cfg in
  (* Load DATA_DIR *)
  let cfg :=
    let dataDir := os.Getenv env "DATA_DIR" in
    if negb (String.eqb dataDir "")
    then mkConfig (EdgePort cfg) dataDir (EnabledServices cfg) (LogLevel cfg)
    else cfg in
  (* Load ENABLED_SERVICES *)
  let cfg :=
    let servicesStr := os.Getenv env "ENABLED_SERVICES" in
    if negb (String.eqb servicesStr "") then
      let enabled := enabled_of servicesStr in
      if (0 <? length enabled)%nat
      then mkConfig (EdgePort cfg) (DataDir cfg) enabled (LogLevel cfg)
      else cfg
    else cfg in
  (* Load LOG_LEVEL *)
  let logLevel := os.Getenv env "LOG_LEVEL" in
  if negb (String.eqb logLevel "")
  then mkConfig (EdgePort cfg) (DataDir cfg) (EnabledServices cfg) logLevel
  else cfg.

Fixpoint IsServiceEnabled_loop (services : list string) (serviceName : string) : bool :=
  match services with
  | [] => false
  | s :: rest => if String.eqb s serviceName then true else IsServiceEnabled_loop rest serviceName
  end.

Definition IsServiceEnabled (c : Config) (serviceName : string) : bool :=
  IsServiceEnabled_loop (EnabledServices c) serviceName.

(** The two errors of [Validate]. *)
Inductive error : Type :=
| InvalidEdgePort (port : Z)
| EmptyDataDir.

Definition Validate (c : Config) : option error :=
  if (EdgePort c <=? 0)%Z || (65536 <=? EdgePort c)%Z then Some (InvalidEdgePort (EdgePort c))
  else if String.eqb (DataDir c) "" then Some EmptyDataDir
  else None.

(** A service name as it can stand in ENABLED_SERVICES: not empty, without
    comma and without white space, in ASCII. *)
Fixpoint no_comma_no_space (s : string) : bool :=
  match s with
  | EmptyString => true
  | String c s' =>
      negb (Ascii.eqb c ",") && negb (strings.is_space c) &&
      (nat_of_ascii c <? 128) && no_comma_no_space s'
  end.

Definition service_name (s : string) : bool :=
  negb (String.eqb s "") && no_comma_no_space s.

End config.

(** ** The invariant and the scenarios used below *)

(** The index and the disk agree on every container with a valid name:
    a recorded key has its directory, an unrecorded one has nothing at its
    path. *)
Definition agree (base : path) (w : world) : Prop :=
  baseDir (store w) = base ∧
  ∀ a c, valid_name a = true → valid_name c = true →
    if index (containers (store w)) (containerKey a c)
    then os.resolve (disk w) (base ++ [a; c]) = Ok os.Dir
    else disk w !! (base ++ [a; c]) = None.

(** The file tree is well formed: whatever exists lies in directories. *)
Definition well_formed (d : os.fs) : Prop :=
  ∀ q n, d !! q = Some n → ∀ r, r `prefix_of` q → r ≠ q → d !! r = Some os.Dir.

(** A disk that holds the root directory only. *)
Definition root_only : os.fs := {[ [] := os.Dir ]}.

(** The store [NewFileBlobStore] makes on [root_only] for the data
    directory [/data]. *)
Definition fresh : world :=
  mkWorld (mkStore ["data"; "blob"] ∅)
    (<[ ["data"; "blob"] := os.Dir ]> (<[ ["data"] := os.Dir ]> root_only)).

(** The process ends and a new one starts on the same disk: the index is
    lost, the files stay. *)
Definition restarted (w : world) : world :=
  mkWorld (mkStore (baseDir (store w)) ∅) (disk w).

(** The bytes of "hello" and of "world". *)
Definition hello : list Byte.byte := [x68; x65; x6c; x6c; x6f].
Definition world_bytes : list Byte.byte := [x77; x6f; x72; x6c; x64].

(** A routed request with the given URL parameters and the body "hello". *)
Definition request_for (account containerName blobName : string) : Request :=
  mkRequest
    (<["account" := account]> (<["container" := containerName]> (<["blobName" := blobName]> ∅)))
    ∅ ∅ (Ok hello).

(** The calls of a sequence that keeps the invariant. *)
Definition invariant_calls : list call :=
  [CallCreateContainer "acct" "c1";
   CallPutBlob "acct" "c1" "dir/f.txt" hello "text/plain" ∅;
   CallPutBlob "acct" "c2" "g" world_bytes "text/plain" ∅;
   CallDeleteBlob "acct" "c1" "dir/f.txt";
   CallDeleteContainer "acct" "c1"].

(** The store after "hello" was put at [f.txt] in container [c1]. *)
Definition after_put : world :=
  (PutBlob fresh "acct" "c1" "f.txt" hello "text/plain" ∅).1.

(** The store after container [c1] was created. *)
Definition after_create : world := (CreateContainer fresh "acct" "c1").1.

(** Container [c1] with the blobs [a/x], [a/y] and [b/z]. *)
Definition three_blobs : world :=
  run fresh
    [CallCreateContainer "acct" "c1";
     CallPutBlob "acct" "c1" "a/x" hello "text/plain" ∅;
     CallPutBlob "acct" "c1" "a/y" hello "text/plain" ∅;
     CallPutBlob "acct" "c1" "b/z" world_bytes "text/plain" ∅].

(** Containers [c1] and [c2] of account [acct] with one blob each. *)
Definition two_containers : world :=
  run fresh
    [CallCreateContainer "acct" "c1";
     CallPutBlob "acct" "c1" "dir/f.txt" hello "text/plain" ∅;
     CallPutBlob "acct" "c2" "g" world_bytes "text/plain" ∅].

(** A routed listing request with the query parameters [prefix] and
    [maxresults]. *)
Definition listing_request (account containerName prefix maxResults : string) : Request :=
  mkRequest (<["account" := account]> (<["container" := containerName]> ∅)) ∅
    (<["prefix" := [prefix]]> (<["maxresults" := [maxResults]]> ∅)) (Ok []).

(** The headers of an upload that names an author twice. *)
Definition upload_header : gmap string (list string) :=
  <["X-Ms-Meta-Author" := ["me"; "you"]]> (<["Content-Type" := ["text/plain"]]> ∅).

(** An environment that enables two services. *)
Definition services_env : gmap string string := {[ "ENABLED_SERVICES" := "blob,queue" ]}.

(** * Facts about the file tree *)

Section os_facts.
Implicit Types (d : os.fs) (p q : path).

Lemma elem_of_ancestors q p : q ∈ os.ancestors p ↔ q `prefix_of` p ∧ q ≠ p.
Proof.
  revert q. induction p as [|s p IH]; intros q; simpl.
  - split; [by intros ?%elem_of_nil|]. intros [Hp Hne]. by apply prefix_nil_inv in Hp.
  - rewrite elem_of_cons, list_elem_of_fmap. split.
    + intros [->|(q' & -> & Hq')]; [split; [apply prefix_nil|done]|].
      apply IH in Hq' as [Hq' Hne]. split; [by apply prefix_cons|congruence].
    + intros [Hp Hne]. destruct q as [|s' q']; [by left|right].
      apply prefix_cons_inv_1 in Hp as Hs. subst s'.
      apply prefix_cons_inv_2 in Hp. exists q'. split; [done|].
      apply IH. split; [done|congruence].
Qed.

Lemma elem_of_prefixes q p : q ∈ os.prefixes p ↔ q `prefix_of` p.
Proof.
  unfold os.prefixes. rewrite elem_of_app, elem_of_ancestors, list_elem_of_singleton.
  split; [intros [[? _]| ->]; done|]. intros Hp. destruct (decide (q = p)); auto.
Qed.

Lemma blocked_true d p :
  os.blocked d p = true ↔ ∃ q, q `prefix_of` p ∧ q ≠ p ∧ os.is_file d q = true.
Proof.
  unfold os.blocked. rewrite existsb_exists. split.
  - intros (q & Hin & Hf). exists q.
    rewrite <-list_elem_of_In, elem_of_ancestors in Hin. tauto.
  - intros (q & Hp & Hne & Hf). exists q. split; [|done].
    rewrite <-list_elem_of_In, elem_of_ancestors. done.
Qed.

Lemma blocked_false d p :
  os.blocked d p = false ↔ ∀ q, q `prefix_of` p → q ≠ p → os.is_file d q = false.
Proof.
  rewrite <-not_true_iff_false, blocked_true. split.
  - intros Hn q Hp Hne. destruct (os.is_file d q) eqn:E; [|done]. destruct Hn; eauto.
  - intros H (q & Hp & Hne & Hf). rewrite H in Hf; done.
Qed.

(** [blocked] only reads the proper prefixes. *)
Lemma blocked_ext d d' p :
  (∀ q, q `prefix_of` p → q ≠ p → os.is_file d' q = os.is_file d q) →
  os.blocked d' p = os.blocked d p.
Proof.
  intros H. destruct (os.blocked d p) eqn:E.
  - apply blocked_true in E as (q & ? & ? & ?). apply blocked_true. exists q. rewrite H; auto.
  - apply blocked_false. intros q ? ?. rewrite H by done. revert q H0 H1. by apply blocked_false.
Qed.

Lemma resolve_Ok d p n : os.resolve d p = Ok n ↔ os.blocked d p = false ∧ d !! p = Some n.
Proof. unfold os.resolve. destruct (os.blocked d p), (d !! p); intuition congruence. Qed.

Lemma resolve_ENOENT d p :
  os.resolve d p = Fail os.ENOENT ↔ os.blocked d p = false ∧ d !! p = None.
Proof. unfold os.resolve. destruct (os.blocked d p), (d !! p); intuition congruence. Qed.

Lemma lookup_mkdirs d (l : list path) q :
  foldr (λ q acc, <[q := os.Dir]> acc) d l !! q = if decide (q ∈ l) then Some os.Dir else d !! q.
Proof.
  induction l as [|x l IH]; simpl.
  - destruct (decide (q ∈ [])) as [Hin|]; [by apply elem_of_nil in Hin|done].
  - destruct (decide (x = q)) as [->|Hne].
    + rewrite lookup_insert_eq.
      destruct (decide (q ∈ q :: l)) as [|Hn]; [done|]. destruct Hn. apply list_elem_of_here.
    + rewrite lookup_insert_ne by done. rewrite IH.
      destruct (decide (q ∈ l)) as [Hin|Hin], (decide (q ∈ x :: l)) as [Hin'|Hin']; try done.
      * destruct Hin'. by apply list_elem_of_further.
      * apply elem_of_cons in Hin' as [->|?]; done.
Qed.

Lemma MkdirAll_Ok d p d' :
  os.MkdirAll d p = Ok d' ↔
  (∀ q, q `prefix_of` p → os.is_file d q = false) ∧
  d' = foldr (λ q acc, <[q := os.Dir]> acc) d (os.prefixes p).
Proof.
  unfold os.MkdirAll. destruct (find _ _) as [q|] eqn:E.
  - split; [done|]. intros [H _]. apply find_some in E as [Hin Hf].
    rewrite <-list_elem_of_In, elem_of_prefixes in Hin. rewrite H in Hf; done.
  - split.
    + intros [= <-]. split; [|done]. intros q Hq. eapply find_none in E; [done|].
      by rewrite <-list_elem_of_In, elem_of_prefixes.
    + by intros [_ ->].
Qed.

Lemma MkdirAll_lookup d p d' q :
  os.MkdirAll d p = Ok d' →
  d' !! q = if decide (q `prefix_of` p) then Some os.Dir else d !! q.
Proof.
  intros [_ ->]%MkdirAll_Ok. rewrite lookup_mkdirs.
  destruct (decide (q ∈ os.prefixes p)) as [Hin|Hin]; rewrite elem_of_prefixes in Hin.
  - by rewrite decide_True.
  - by rewrite decide_False.
Qed.

Lemma MkdirAll_is_file d p d' q :
  os.MkdirAll d p = Ok d' → os.is_file d' q = os.is_file d q.
Proof.
  intros H. pose proof (MkdirAll_lookup _ _ _ q H) as Hl.
  apply MkdirAll_Ok in H as [Hnf _]. unfold os.is_file in *.
  rewrite Hl. case_decide; [|done]. specialize (Hnf q H).
  destruct (d !! q) as [[]|]; done.
Qed.

Lemma MkdirAll_blocked d p d' q :
  os.MkdirAll d p = Ok d' → os.blocked d' q = os.blocked d q.
Proof. intros H. apply blocked_ext. intros. by eapply MkdirAll_is_file. Qed.

Lemma MkdirAll_Fail d p e :
  os.MkdirAll d p = Fail e → ∃ q, q `prefix_of` p ∧ os.is_file d q = true.
Proof.
  unfold os.MkdirAll. destruct (find _ _) as [q|] eqn:E; [|done]. intros _.
  apply find_some in E as [Hin Hf]. rewrite <-list_elem_of_In, elem_of_prefixes in Hin. eauto.
Qed.

Lemma WriteFile_Ok d p data d' :
  os.WriteFile d p data = Ok d' →
  os.blocked d p = false ∧ d !! p ≠ Some os.Dir ∧ d' = <[p := os.File data]> d.
Proof.
  unfold os.WriteFile. destruct (os.blocked d p); [done|].
  destruct (d !! p) as [[]|]; [naive_solver|done|].
  destruct (os.is_dir _ _); naive_solver.
Qed.

Lemma blocked_insert_self d p n : os.blocked (<[p := n]> d) p = os.blocked d p.
Proof.
  apply blocked_ext. intros q _ Hne. unfold os.is_file. by rewrite lookup_insert_ne.
Qed.

Lemma blocked_delete_self d p : os.blocked (delete p d) p = os.blocked d p.
Proof.
  apply blocked_ext. intros q _ Hne. unfold os.is_file. by rewrite lookup_delete_ne.
Qed.

Lemma Remove_Ok d p d' :
  os.Remove d p = Ok d' →
  os.blocked d p = false ∧ is_Some (d !! p) ∧ d' = delete p d.
Proof.
  unfold os.Remove. destruct (os.resolve d p) as [n|] eqn:E; [|done].
  apply resolve_Ok in E as [Hb Hl]. destruct n.
  - naive_solver.
  - destruct (os.has_children d p); naive_solver.
Qed.

Lemma RemoveAll_Ok d p d' :
  os.RemoveAll d p = Ok d' →
  os.blocked d p = false ∧ ∀ q, d' !! q = if decide (p `prefix_of` q) then None else d !! q.
Proof.
  unfold os.RemoveAll. destruct (os.blocked d p); [done|]. intros [= <-]. split; [done|].
  intros q. rewrite map_lookup_filter. destruct (d !! q) as [n|] eqn:E; simpl.
  - case_guard; simpl in *; case_decide; done.
  - by case_decide.
Qed.
End os_facts.

Section path_facts.
Implicit Types (d : os.fs) (p q : path).

Lemma prefix_removelast q p :
  p ≠ [] → q `prefix_of` removelast p ↔ q `prefix_of` p ∧ q ≠ p.
Proof.
  intros Hne. destruct p as [|x r _] using rev_ind; [done|]. clear Hne.
  rewrite removelast_last. split.
  - intros Hq. split; [by apply prefix_app_r|]. intros ->.
    apply prefix_length in Hq. rewrite length_app in Hq. simpl in Hq. lia.
  - intros [[k Hk] Hne]. destruct k as [|y k _] using rev_ind.
    + rewrite app_nil_r in Hk. by subst.
    + rewrite app_assoc in Hk. apply app_inj_tail in Hk as [-> _]. by apply prefix_app_r.
Qed.

Lemma prefix_same_length q p : q `prefix_of` p → length q = length p → q = p.
Proof. intros Hq Hl. apply prefix_length_eq; [done|lia]. Qed.

Lemma resolve_ext d d' p :
  (∀ q, q `prefix_of` p → d' !! q = d !! q) → os.resolve d' p = os.resolve d p.
Proof.
  intros H. unfold os.resolve. rewrite (blocked_ext d d' p).
  - by rewrite H.
  - intros q Hq _. unfold os.is_file. by rewrite H.
Qed.

Lemma MkdirAll_resolve_dir d p d' x :
  os.MkdirAll d p = Ok d' → os.resolve d x = Ok os.Dir → os.resolve d' x = Ok os.Dir.
Proof.
  intros H [Hb Hl]%resolve_Ok. apply resolve_Ok. split.
  - by rewrite (MkdirAll_blocked _ _ _ _ H).
  - rewrite (MkdirAll_lookup _ _ _ _ H). by case_decide.
Qed.

Lemma MkdirAll_target d p d' : os.MkdirAll d p = Ok d' → os.resolve d' p = Ok os.Dir.
Proof.
  intros H. apply resolve_Ok. split.
  - rewrite (MkdirAll_blocked _ _ _ _ H). apply blocked_false. intros q Hq _.
    apply MkdirAll_Ok in H as [H _]. by apply H.
  - rewrite (MkdirAll_lookup _ _ _ _ H). by rewrite decide_True.
Qed.

Lemma has_children_false d p :
  os.has_children d p = false ↔ ∀ q, p `prefix_of` q → q ≠ p → d !! q = None.
Proof.
  unfold os.has_children. rewrite <-not_true_iff_false, existsb_exists. split.
  - intros Hn q Hq Hne. destruct (d !! q) as [n|] eqn:E; [|done]. destruct Hn.
    exists (q, n). split; [by rewrite <-list_elem_of_In, elem_of_map_to_list|].
    apply bool_decide_eq_true. by split.
  - intros H ([q n] & Hin & Hq). rewrite <-list_elem_of_In, elem_of_map_to_list in Hin.
    apply bool_decide_eq_true in Hq as [Hq Hne]. simpl in *. rewrite H in Hin; done.
Qed.
End path_facts.

(** * Facts about names and joined paths *)

Section name_facts.
Implicit Types (s a c b : string) (p q : path).

Lemma split_sep_nonempty s : filepath.split_sep s ≠ [].
Proof.
  destruct s as [|x s]; simpl; [done|].
  destruct (Ascii.eqb x "/"); [done|]. by destruct (filepath.split_sep s).
Qed.

Lemma split_sep_app_slash s1 s2 :
  filepath.split_sep (s1 +:+ "/" +:+ s2) = filepath.split_sep s1 ++ filepath.split_sep s2.
Proof.
  induction s1 as [|x s1 IH]; simpl; [done|].
  rewrite IH. destruct (Ascii.eqb x "/"); [done|].
  pose proof (split_sep_nonempty s1). by destruct (filepath.split_sep s1).
Qed.

Lemma valid_name_split s : valid_name s = true → filepath.split_sep s = [s] ∧ plain s = true.
Proof.
  unfold valid_name. intros [H1 H2]%andb_true_iff. by apply bool_decide_eq_true in H1.
Qed.

Lemma containerKey_inj a c a' c' :
  valid_name a = true → valid_name c = true → valid_name a' = true → valid_name c' = true →
  containerKey a c = containerKey a' c' → a = a' ∧ c = c'.
Proof.
  intros [Ha _]%valid_name_split [Hc _]%valid_name_split
         [Ha' _]%valid_name_split [Hc' _]%valid_name_split H.
  apply (f_equal filepath.split_sep) in H. unfold containerKey in H.
  rewrite !split_sep_app_slash, Ha, Hc, Ha', Hc' in H. by simplify_eq.
Qed.

Lemma push_plain p s : plain s = true → filepath.push p s = p ++ [s].
Proof.
  unfold plain, filepath.push. intros [[H1 H2]%andb_true_iff H3]%andb_true_iff.
  apply negb_true_iff, String.eqb_neq in H1, H2, H3.
  by rewrite !decide_False.
Qed.

Lemma foldl_push_plain p segs :
  forallb plain segs = true → foldl filepath.push p segs = p ++ segs.
Proof.
  revert p. induction segs as [|s segs IH]; intros p; simpl; [by rewrite app_nil_r|].
  intros [H1 H2]%andb_true_iff. rewrite push_plain, IH by done. by rewrite <-app_assoc.
Qed.

Lemma Clean_onto_valid_name p s : valid_name s = true → filepath.Clean_onto p s = p ++ [s].
Proof.
  intros [Hs Hp]%valid_name_split. unfold filepath.Clean_onto. rewrite Hs. simpl.
  by apply push_plain.
Qed.

Lemma containerPath_valid st a c :
  valid_name a = true → valid_name c = true →
  containerPath st a c = baseDir st ++ [a; c].
Proof.
  intros Ha Hc. unfold containerPath, filepath.Join. simpl.
  rewrite !Clean_onto_valid_name by done. by rewrite <-app_assoc.
Qed.

Lemma blobPath_valid st a c b :
  valid_blob_name b = true →
  blobPath st a c b = containerPath st a c ++ filepath.split_sep b.
Proof.
  intros Hb. unfold blobPath, filepath.Join. simpl. unfold filepath.Clean_onto at 1.
  by apply foldl_push_plain.
Qed.
End name_facts.

(** * Facts about the store operations *)

Lemma kind_Wrapped msg err :
  kind (Wrapped msg err) ≠ NotFound ∧ kind (Wrapped msg err) ≠ AlreadyExists.
Proof. unfold kind. by case_decide. Qed.

Ltac kind_absurd :=
  match goal with
  | H : kind (Wrapped ?m ?e) = NotFound |- _ => by destruct (proj1 (kind_Wrapped m e))
  | H : kind (Wrapped ?m ?e) = AlreadyExists |- _ => by destruct (proj2 (kind_Wrapped m e))
  end.

Section store_facts.
Implicit Types (w : world) (a c b : string).

Lemma ContainerExists_index w a c :
  ContainerExists w a c = (index (containers (store w)) (containerKey a c), None).
Proof. done. Qed.

Lemma index_insert_eq (m : gmap string bool) key : index (<[key := true]> m) key = true.
Proof. unfold index. by rewrite lookup_insert_eq. Qed.

Lemma index_insert_ne (m : gmap string bool) key key' :
  key ≠ key' → index (<[key := true]> m) key' = index m key'.
Proof. intros. unfold index. by rewrite lookup_insert_ne. Qed.

Lemma index_delete_eq (m : gmap string bool) key : index (delete key m) key = false.
Proof. unfold index. by rewrite lookup_delete_eq. Qed.

Lemma index_delete_ne (m : gmap string bool) key key' :
  key ≠ key' → index (delete key m) key' = index m key'.
Proof. intros. unfold index. by rewrite lookup_delete_ne. Qed.

(** What a successful [PutBlob] went through. *)
Lemma PutBlob_Ok w a c b content ct md w' :
  PutBlob w a c b content ct md = (w', None) →
  ∃ d1 d2,
    (if index (containers (store w)) (containerKey a c) then d1 = disk w
     else os.MkdirAll (disk w) (containerPath (store w) a c) = Ok d1) ∧
    os.MkdirAll d1 (filepath.Dir (blobPath (store w) a c b)) = Ok d2 ∧
    os.WriteFile d2 (blobPath (store w) a c b) content = Ok (disk w') ∧
    baseDir (store w') = baseDir (store w) ∧
    containers (store w') =
      (if index (containers (store w)) (containerKey a c) then containers (store w)
       else <[containerKey a c := true]> (containers (store w))).
Proof.
  unfold PutBlob. destruct (index _ _) eqn:Hi; simpl.
  - destruct (os.MkdirAll _ _) as [d2|] eqn:E2; [|done].
    destruct (os.WriteFile _ _ _) as [d3|] eqn:E3; [|done].
    intros [= <-]. exists (disk w), d2. done.
  - destruct (os.MkdirAll (disk w) _) as [d1|] eqn:E1; [|done]. simpl.
    destruct (os.MkdirAll d1 _) as [d2|] eqn:E2; [|done].
    destruct (os.WriteFile _ _ _) as [d3|] eqn:E3; [|done].
    intros [= <-]. exists d1, d2. done.
Qed.

Lemma GetBlob_file w a c b content :
  os.blocked (disk w) (blobPath (store w) a c b) = false →
  disk w !! blobPath (store w) a c b = Some (os.File content) →
  GetBlob w a c b =
    Ok (Blob.mk b c a content "application/octet-stream" (Z.of_nat (length content)) ∅).
Proof.
  intros Hb Hl. unfold GetBlob, os.ReadFile, os.Stat.
  assert (os.resolve (disk w) (blobPath (store w) a c b) = Ok (os.File content)) as ->.
  { by apply resolve_Ok. }
  done.
Qed.

Lemma PutBlob_stored w a c b content ct md w' :
  PutBlob w a c b content ct md = (w', None) →
  os.blocked (disk w') (blobPath (store w') a c b) = false ∧
  disk w' !! blobPath (store w') a c b = Some (os.File content).
Proof.
  intros (d1 & d2 & _ & _ & Hw & Hbase & _)%PutBlob_Ok.
  apply WriteFile_Ok in Hw as (Hb & _ & Hd).
  unfold blobPath, containerPath in *. rewrite Hbase, Hd.
  by rewrite blocked_insert_self, lookup_insert_eq.
Qed.

(** [CreateContainer] goes through when the key is free and the directory
    is already there. *)
Lemma CreateContainer_existing_dir w a c :
  index (containers (store w)) (containerKey a c) = false →
  os.resolve (disk w) (containerPath (store w) a c) = Ok os.Dir →
  ∃ w', CreateContainer w a c = (w', None) ∧ ContainerExists w' a c = (true, None).
Proof.
  intros Hi [Hb Hl]%resolve_Ok. unfold CreateContainer. rewrite Hi.
  destruct (os.MkdirAll _ _) as [d'|] eqn:E.
  - eexists. split; [done|]. rewrite ContainerExists_index. simpl. by rewrite index_insert_eq.
  - apply MkdirAll_Fail in E as (q & Hq & Hf).
    destruct (decide (q = containerPath (store w) a c)) as [->|Hne].
    + unfold os.is_file in Hf. by rewrite Hl in Hf.
    + rewrite blocked_false in Hb. rewrite Hb in Hf; done.
Qed.

(** Every entry the closure of [ListBlobs] appends has the shape [P]
    accepts. *)
Lemma walk_loop_list_visit_Forall (P : BlobInfo.t → Prop) cp prefix maxResults todo acc :
  (∀ name size, P (BlobInfo.mk name "application/octet-stream" size ∅)) →
  Forall P acc →
  Forall P (filepath.walk_loop (list_visit cp prefix maxResults) acc todo).1.
Proof.
  intros HP. revert acc. induction todo as [|[p n] todo IH]; intros acc Hacc; simpl; [done|].
  destruct (os.IsDir (os.info_of n)); [by apply IH|].
  destruct (_ && _); [by apply IH|].
  destruct (_ && _); [done|].
  apply IH. apply Forall_app. split; [done|]. by apply Forall_singleton.
Qed.
End store_facts.

(** * Facts about listings *)

Section listing_facts.
Implicit Types (d : os.fs) (p q root : path).

Lemma elem_of_walk_order d root q n :
  (q, n) ∈ filepath.walk_order d root ↔ root `prefix_of` q ∧ d !! q = Some n.
Proof.
  unfold filepath.walk_order. rewrite merge_sort_Permutation.
  rewrite list_elem_of_filter, elem_of_map_to_list. done.
Qed.

Lemma NoDup_walk_order d root : NoDup (filepath.walk_order d root).
Proof.
  unfold filepath.walk_order. rewrite merge_sort_Permutation.
  apply NoDup_filter, NoDup_map_to_list.
Qed.

Lemma elem_of_files_below d root q content :
  (q, content) ∈ files_below d root ↔ root `prefix_of` q ∧ d !! q = Some (os.File content).
Proof.
  unfold files_below. rewrite list_elem_of_omap. split.
  - intros ([q' n] & Hin & Hf). unfold file_of in Hf. simpl in Hf. destruct n; simplify_eq.
    by apply elem_of_walk_order in Hin.
  - intros H. exists (q, os.File content). split; [|done]. by apply elem_of_walk_order.
Qed.

Lemma NoDup_files_below d root : NoDup (files_below d root).
Proof.
  unfold files_below. pose proof (NoDup_walk_order d root) as H.
  induction H as [|[q n] l Hnin Hnd IH]; simpl; [constructor|].
  destruct n as [content|]; simpl; [|done]. constructor; [|done].
  rewrite list_elem_of_omap. intros ([q' n'] & Hin & Hf). unfold file_of in Hf. simpl in Hf.
  destruct n'; simplify_eq. done.
Qed.

Lemma common_prefix_app root rest : filepath.common_prefix root (root ++ rest) = length root.
Proof.
  induction root as [|s root IH]; simpl; [by destruct rest|].
  by rewrite decide_True, IH.
Qed.

Lemma blob_name_below root rest :
  rest ≠ [] → blob_name root (root ++ rest) = String.concat "/" rest.
Proof.
  intros Hne. unfold blob_name, filepath.ToSlash, filepath.Rel.
  rewrite common_prefix_app, Nat.sub_diag, drop_app_length.
  simpl. by destruct rest.
Qed.

Lemma length_cap {A} maxResults (l : list A) :
  length (cap maxResults l) =
  if (0 <? maxResults)%Z then Nat.min (Z.to_nat maxResults) (length l) else length l.
Proof. unfold cap. destruct (0 <? maxResults)%Z; [apply length_take|done]. Qed.

(** One call of the closure on a regular file. *)
Lemma list_visit_file root prefix maxResults acc q content :
  list_visit root prefix maxResults acc q (Ok (os.info_of (os.File content))) =
  match entry_for root prefix (q, content) with
  | None => (acc, filepath.Continue)
  | Some e =>
      if (0 <? maxResults)%Z && (maxResults <=? Z.of_nat (length acc))%Z
      then (acc, filepath.SkipAll)
      else (acc ++ [e], filepath.Continue)
  end.
Proof.
  unfold list_visit, entry_for, passes, entry_of, blob_name. simpl.
  by destruct (String.eqb prefix ""), (filepath.HasPrefix _ _).
Qed.

Lemma omap_entry_for root prefix (l : list (path * list Byte.byte)) :
  omap (entry_for root prefix) l =
  entry_of root <$> filter (λ f, passes prefix (blob_name root f.1)) l.
Proof.
  induction l as [|f l IH]; [done|]. rewrite filter_cons.
  cbn [omap list_omap]. fold (omap (entry_for root prefix) l). rewrite IH.
  unfold entry_for. destruct (passes prefix (blob_name root f.1)) eqn:E.
  - by rewrite decide_True by done.
  - by rewrite decide_False by (by intros []).
Qed.

(** The loop of [filepath.Walk] under the closure of [ListBlobs]: the
    entries of the files met, up to the cap. *)
Lemma walk_loop_list_visit root prefix maxResults todo acc :
  filepath.walk_loop (list_visit root prefix maxResults) acc todo =
  (if (0 <? maxResults)%Z
   then acc ++ take (Z.to_nat maxResults - length acc)
                 (omap (entry_for root prefix) (omap file_of todo))
   else acc ++ omap (entry_for root prefix) (omap file_of todo), None).
Proof.
  revert acc. induction todo as [|[q n] todo IH]; intros acc.
  - simpl. rewrite take_nil. destruct (0 <? maxResults)%Z; by rewrite app_nil_r.
  - destruct n as [content|]; [|apply IH].
    change (filepath.walk_loop _ acc ((q, os.File content) :: todo)) with
      (match list_visit root prefix maxResults acc q (Ok (os.info_of (os.File content))) with
       | (acc', filepath.Continue) =>
           filepath.walk_loop (list_visit root prefix maxResults) acc' todo
       | (acc', filepath.SkipAll) => (acc', None)
       | (acc', filepath.Stop err) => (acc', Some err)
       end).
    rewrite list_visit_file.
    change (omap file_of ((q, os.File content) :: todo)) with ((q, content) :: omap file_of todo).
    change (omap (entry_for root prefix) ((q, content) :: omap file_of todo)) with
      (match entry_for root prefix (q, content) with
       | Some e => e :: omap (entry_for root prefix) (omap file_of todo)
       | None => omap (entry_for root prefix) (omap file_of todo)
       end).
    destruct (entry_for root prefix (q, content)) as [e|]; [|apply IH].
    destruct (0 <? maxResults)%Z eqn:Hpos; cbn [andb].
    + destruct (maxResults <=? Z.of_nat (length acc))%Z eqn:Hfull.
      * apply Z.leb_le in Hfull.
        replace (Z.to_nat maxResults - length acc) with 0 by lia.
        by rewrite take_0, app_nil_r.
      * apply Z.leb_gt in Hfull. rewrite IH. f_equal.
        rewrite length_app. cbn [length].
        replace (Z.to_nat maxResults - length acc)
          with (S (Z.to_nat maxResults - (length acc + 1))) by lia.
        cbn [take]. by rewrite <-app_assoc.
    + rewrite IH. by rewrite <-app_assoc.
Qed.

Lemma ListBlobs_found w a c prefix maxResults n :
  os.resolve (disk w) (containerPath (store w) a c) = Ok n →
  ListBlobs w a c prefix maxResults =
  (cap maxResults (listing (disk w) (containerPath (store w) a c) prefix), None).
Proof.
  intros E. unfold ListBlobs, os.Stat, filepath.Walk, os.Lstat. rewrite E.
  rewrite walk_loop_list_visit. simpl. unfold cap, listing, files_below.
  rewrite omap_entry_for. destruct (0 <? maxResults)%Z; [|done]. by rewrite Nat.sub_0_r.
Qed.
End listing_facts.

(** * The index follows the disk *)

Section invariant.
Implicit Types (w : world) (a c b : string) (p q base : path).

Lemma container_paths_apart base a c a' c' rest :
  base ++ [a'; c'] `prefix_of` (base ++ [a; c]) ++ rest → a' = a ∧ c' = c.
Proof.
  rewrite <-app_assoc. intros H%prefix_app_inv. simpl in H.
  apply prefix_cons_inv_1 in H as Ha. subst. apply prefix_cons_inv_2 in H.
  by apply prefix_cons_inv_1 in H as Hc.
Qed.

(** A change below the container directories does not disturb the
    agreement. *)
Lemma agree_deep base w d' :
  agree base w →
  (∀ q, length q ≤ length base + 2 → d' !! q = disk w !! q) →
  agree base (mkWorld (store w) d').
Proof.
  intros [Hbase H] Hd. split; [done|]. intros a c Ha Hc. specialize (H a c Ha Hc). simpl.
  assert (length (base ++ [a; c]) = length base + 2) as Hlen by (rewrite length_app; simpl; lia).
  destruct (index _ _).
  - rewrite <-H. apply resolve_ext. intros q Hq%prefix_length. apply Hd. lia.
  - rewrite Hd; [done|lia].
Qed.

(** Creating a container directory and marking its key. *)
Lemma agree_mark base w a c d' :
  agree base w → valid_name a = true → valid_name c = true →
  os.MkdirAll (disk w) (base ++ [a; c]) = Ok d' →
  agree base (mkWorld (mkStore base (<[containerKey a c := true]> (containers (store w)))) d').
Proof.
  intros [Hbase H] Ha Hc E. split; [done|]. intros a' c' Ha' Hc'. simpl.
  destruct (decide (containerKey a c = containerKey a' c')) as [Hk|Hk].
  - rewrite <-Hk, index_insert_eq.
    apply containerKey_inj in Hk as [<- <-]; [|done..]. by eapply MkdirAll_target.
  - rewrite index_insert_ne by done. specialize (H a' c' Ha' Hc').
    destruct (index _ _).
    + by eapply MkdirAll_resolve_dir.
    + rewrite (MkdirAll_lookup _ _ _ _ E), decide_False; [done|].
      intros Hp. rewrite <-(app_nil_r (base ++ [a; c])) in Hp.
      apply container_paths_apart in Hp as [-> ->]. done.
Qed.

(** Creating directories inside a container whose key is marked. *)
Lemma agree_mkdir_inside base w a c rest d' :
  agree base w → valid_name a = true → valid_name c = true →
  index (containers (store w)) (containerKey a c) = true →
  os.MkdirAll (disk w) ((base ++ [a; c]) ++ rest) = Ok d' →
  agree base (mkWorld (store w) d').
Proof.
  intros [Hbase H] Ha Hc Hi E. split; [done|]. intros a' c' Ha' Hc'. simpl.
  specialize (H a' c' Ha' Hc'). destruct (index _ _) eqn:Hi'.
  - by eapply MkdirAll_resolve_dir.
  - rewrite (MkdirAll_lookup _ _ _ _ E), decide_False; [done|].
    intros [-> ->]%container_paths_apart. congruence.
Qed.

(** Removing a container directory and unmarking its key. *)
Lemma agree_unmark base w a c d' :
  agree base w → valid_name a = true → valid_name c = true →
  os.RemoveAll (disk w) (base ++ [a; c]) = Ok d' →
  agree base (mkWorld (mkStore base (delete (containerKey a c) (containers (store w)))) d').
Proof.
  intros [Hbase H] Ha Hc [_ Hl]%RemoveAll_Ok. split; [done|]. intros a' c' Ha' Hc'. simpl.
  destruct (decide (containerKey a c = containerKey a' c')) as [Hk|Hk].
  - rewrite <-Hk, index_delete_eq.
    apply containerKey_inj in Hk as [<- <-]; [|done..]. by rewrite Hl, decide_True.
  - rewrite index_delete_ne by done. specialize (H a' c' Ha' Hc').
    assert (∀ q, q `prefix_of` base ++ [a'; c'] → d' !! q = disk w !! q) as Hsame.
    { intros q Hq. rewrite Hl, decide_False; [done|]. intros Hp.
      assert (base ++ [a; c] `prefix_of` (base ++ [a'; c']) ++ []) as Hp'.
      { rewrite app_nil_r. by etrans. }
      apply container_paths_apart in Hp' as [-> ->]. done. }
    destruct (index _ _).
    + rewrite <-H. by apply resolve_ext.
    + by rewrite Hsame.
Qed.

Lemma exec_agree base w op : agree base w → valid_call op = true → agree base (exec w op).
Proof.
  intros Hw Hv. pose proof Hw as [Hbase Hag].
  destruct op as [a c|a c|a c|a c b content ct md|a c b|a c b|a c pre mx]; simpl in *;
    try done.
  - (* CreateContainer *)
    apply andb_true_iff in Hv as [Ha Hc]. unfold CreateContainer.
    destruct (index _ _); [done|].
    rewrite containerPath_valid, Hbase by done.
    destruct (os.MkdirAll _ _) as [d'|] eqn:E; [|done]. simpl. by apply agree_mark.
  - (* DeleteContainer *)
    apply andb_true_iff in Hv as [Ha Hc]. unfold DeleteContainer.
    destruct (index _ _); simpl; [|done].
    rewrite containerPath_valid, Hbase by done.
    destruct (os.RemoveAll _ _) as [d'|] eqn:E; [|done]. simpl. by apply agree_unmark.
  - (* PutBlob *)
    apply andb_true_iff in Hv as [[Ha Hc]%andb_true_iff Hb]. unfold PutBlob.
    rewrite blobPath_valid, containerPath_valid, Hbase by done.
    pose proof (split_sep_nonempty b) as Hne.
    destruct (filepath.split_sep b) as [|seg segs _] using rev_ind; [done|clear Hne].
    unfold filepath.Dir. rewrite app_assoc, removelast_last.
    set (ensured := if negb _ then _ else _).
    assert ((∃ w1, ensured = Ok w1 ∧ agree base w1 ∧
                   index (containers (store w1)) (containerKey a c) = true) ∨
            (∃ e, ensured = Fail e)) as [(w1 & -> & Hw1 & Hi1)|[e ->]]; [|simpl|done].
    { subst ensured. destruct (index _ _) eqn:Hi; simpl; [left; by exists w|].
      destruct (os.MkdirAll _ _) as [d1|] eqn:E1; [left|right; by eexists].
      eexists. split; [done|]. split; [by apply agree_mark|]. simpl. apply index_insert_eq. }
    destruct (os.MkdirAll (disk w1) _) as [d2|] eqn:E2; [|done].
    assert (agree base (mkWorld (store w1) d2)) as Hw2
      by by apply (agree_mkdir_inside base w1 a c segs d2).
    destruct (os.WriteFile d2 _ content) as [d3|] eqn:E3; [|done]. simpl.
    apply WriteFile_Ok in E3 as (_ & _ & ->).
    apply (agree_deep base (mkWorld (store w1) d2)); [done|]. simpl.
    intros q Hq. rewrite lookup_insert_ne; [done|]. intros <-.
    rewrite !length_app in Hq. simpl in Hq. lia.
  - (* DeleteBlob *)
    apply andb_true_iff in Hv as [[Ha Hc]%andb_true_iff Hb]. unfold DeleteBlob.
    rewrite blobPath_valid, containerPath_valid, Hbase by done.
    destruct (os.Remove _ _) as [d'|e] eqn:E; [|by destruct (os.IsNotExist e)]. simpl.
    apply Remove_Ok in E as (_ & _ & ->). apply agree_deep; [done|].
    intros q Hq. rewrite lookup_delete_ne; [done|]. intros <-.
    pose proof (split_sep_nonempty b) as Hne.
    destruct (filepath.split_sep b); [done|].
    rewrite !length_app in Hq. simpl in Hq. lia.
Qed.

Lemma run_agree base w ops :
  agree base w → forallb valid_call ops = true → agree base (run w ops).
Proof.
  revert w. induction ops as [|op ops IH]; intros w Hw; simpl; [done|].
  intros [Hop Hops]%andb_true_iff. apply IH; [|done]. by apply exec_agree.
Qed.

Lemma fresh_agree d dataDir w0 :
  NewFileBlobStore d dataDir = Ok w0 →
  os.has_children (disk w0) (baseDir (store w0)) = false →
  agree (baseDir (store w0)) w0.
Proof.
  unfold NewFileBlobStore. destruct (os.MkdirAll _ _) as [d'|]; [|done].
  intros [= <-]. simpl. rewrite has_children_false. intros Hempty. split; [done|].
  intros a c _ _. simpl. unfold index. rewrite lookup_empty. simpl.
  apply Hempty; [by apply prefix_app_r|].
  intros E. apply (f_equal length) in E. rewrite length_app in E. simpl in E. lia.
Qed.

End invariant.

(** * The file tree stays well formed *)

Section well_formed_facts.
Implicit Types (d : os.fs) (p q r : path) (w : world).

Lemma well_formed_root_only : well_formed root_only.
Proof.
  intros q n Hq r Hr Hne. unfold root_only in Hq.
  apply lookup_singleton_Some in Hq as [<- _]. by apply prefix_nil_inv in Hr.
Qed.

Lemma well_formed_MkdirAll d p d' :
  well_formed d → os.MkdirAll d p = Ok d' → well_formed d'.
Proof.
  intros Hwf E q n Hq r Hr Hne.
  rewrite (MkdirAll_lookup _ _ _ _ E) in Hq. rewrite (MkdirAll_lookup _ _ _ _ E).
  destruct (decide (r `prefix_of` p)) as [|Hrp]; [done|].
  destruct (decide (q `prefix_of` p)) as [Hqp|]; [destruct Hrp; by etrans|].
  by eapply Hwf.
Qed.

Lemma well_formed_WriteFile d p data d' :
  well_formed d → os.WriteFile d p data = Ok d' → well_formed d'.
Proof.
  intros Hwf E q n Hq r Hr Hne.
  assert (d' = <[p := os.File data]> d ∧ d !! p ≠ Some os.Dir ∧
          (is_Some (d !! p) ∨ d !! removelast p = Some os.Dir)) as (-> & Hnd & Hpar).
  { revert E. unfold os.WriteFile, os.is_dir. destruct (os.blocked d p); [done|].
    destruct (d !! p) as [[]|]; [intros [= <-]; eauto|done|].
    destruct (d !! removelast p) as [[]|]; [done| |done]. intros [= <-]. eauto. }
  destruct (decide (r = p)) as [->|Hrp].
  - rewrite lookup_insert_ne in Hq by done. destruct Hnd. by eapply Hwf.
  - rewrite lookup_insert_ne by done.
    destruct (decide (q = p)) as [->|Hqp]; [|rewrite lookup_insert_ne in Hq by done; by eapply Hwf].
    destruct Hpar as [[m Hm]|Hpar]; [by eapply Hwf|].
    assert (p ≠ []) as Hp. { intros ->. by apply prefix_nil_inv in Hr. }
    assert (r `prefix_of` removelast p) as Hr' by by apply prefix_removelast.
    destruct (decide (r = removelast p)) as [->|]; [done|]. by eapply Hwf.
Qed.

Lemma well_formed_Remove d p d' :
  well_formed d → os.Remove d p = Ok d' → well_formed d'.
Proof.
  intros Hwf E q n Hq r Hr Hne.
  assert (d' = delete p d ∧
          (∃ content, d !! p = Some (os.File content)) ∨
          d' = delete p d ∧ os.has_children d p = false) as Hcase.
  { revert E. unfold os.Remove. destruct (os.resolve d p) as [m|] eqn:Er; [|done].
    apply resolve_Ok in Er as [_ Hl]. destruct m; [intros [= <-]; left; eauto|].
    destruct (os.has_children d p); [done|]. intros [= <-]. by right. }
  assert (d' = delete p d) as -> by (by destruct Hcase as [[? _]|[? _]]).
  apply lookup_delete_Some in Hq as [Hqp Hq].
  destruct (decide (r = p)) as [->|Hrp]; [|rewrite lookup_delete_ne by done; by eapply Hwf].
  destruct Hcase as [[_ [content Hf]]|[_ Hc]].
  - specialize (Hwf q n Hq p Hr Hne). congruence.
  - rewrite has_children_false in Hc. rewrite Hc in Hq; done.
Qed.

Lemma well_formed_RemoveAll d p d' :
  well_formed d → os.RemoveAll d p = Ok d' → well_formed d'.
Proof.
  intros Hwf [_ Hl]%RemoveAll_Ok q n Hq r Hr Hne.
  rewrite Hl in Hq. rewrite Hl.
  destruct (decide (p `prefix_of` q)) as [|Hpq]; [done|].
  rewrite decide_False; [by eapply Hwf|]. intros Hpr. destruct Hpq. by etrans.
Qed.

Lemma well_formed_exec w op : well_formed (disk w) → well_formed (disk (exec w op)).
Proof.
  intros Hwf.
  destruct op as [a c|a c|a c|a c b content ct md|a c b|a c b|a c pre mx]; simpl; try done.
  - unfold CreateContainer. destruct (index _ _); [done|].
    destruct (os.MkdirAll _ _) eqn:E; [|done]. by eapply well_formed_MkdirAll.
  - unfold DeleteContainer. destruct (index _ _); simpl; [|done].
    destruct (os.RemoveAll _ _) eqn:E; [|done]. by eapply well_formed_RemoveAll.
  - unfold PutBlob. set (ensured := if negb _ then _ else _).
    assert (match ensured with Ok w1 => well_formed (disk w1) | Fail _ => True end) as H1.
    { subst ensured. destruct (index _ _); simpl; [done|].
      destruct (os.MkdirAll _ _) eqn:E; [|done]. by eapply well_formed_MkdirAll. }
    destruct ensured as [w1|]; [|done].
    destruct (os.MkdirAll (disk w1) _) as [d2|] eqn:E2; [|done].
    pose proof (well_formed_MkdirAll _ _ _ H1 E2) as H2.
    destruct (os.WriteFile d2 _ _) eqn:E3; [|done]. by eapply well_formed_WriteFile.
  - unfold DeleteBlob. destruct (os.Remove _ _) as [d'|e] eqn:E;
      [by eapply well_formed_Remove|by destruct (os.IsNotExist e)].
Qed.

(** On a well-formed disk a store is created well formed and stays so
    under every sequence of calls. *)
Lemma well_formed_run d dataDir w0 ops :
  well_formed d → NewFileBlobStore d dataDir = Ok w0 → well_formed (disk (run w0 ops)).
Proof.
  intros Hwf Hnew.
  assert (well_formed (disk w0)) as H0.
  { revert Hnew. unfold NewFileBlobStore. destruct (os.MkdirAll _ _) eqn:E; [|done].
    intros [= <-]. by eapply well_formed_MkdirAll. }
  clear Hnew. revert w0 H0. induction ops as [|op ops IH]; intros w0 H0; [done|].
  simpl. apply IH. by apply well_formed_exec.
Qed.

(** On a well-formed disk path resolution fails with ENOENT exactly for the
    paths that do not exist below directories, and finds every entry. *)
Lemma well_formed_resolve d p n : well_formed d → d !! p = Some n → os.resolve d p = Ok n.
Proof.
  intros Hwf Hp. apply resolve_Ok. split; [|done]. apply blocked_false.
  intros q Hq Hne. unfold os.is_file. by rewrite (Hwf p n Hp q Hq Hne).
Qed.
End well_formed_facts.

(** * The properties of the specification *)

Lemma fresh_is_new : NewFileBlobStore root_only ["data"] = Ok fresh.
Proof. vm_compute. reflexivity. Qed.

(** ** C1: the index and the container directories *)

(** C1, counterexample. The claim asks that a container key is in the index
    exactly when its directory exists, after every operation on a fresh
    store. First scenario: on the store made on an empty data directory,
    [PutBlob] with the blob name [../d/x] in container [c] of account [a]
    creates the directory of container [d] and leaves the index without the
    key of [d]. Second scenario: a store made on the disk an earlier process
    left behind starts with an empty index although the directory of
    container [c] exists. *)
Lemma index_diverges_from_disk :
  (let w := run fresh [CallPutBlob "a" "c" "../d/x" hello "text/plain" ∅] in
   ContainerExists w "a" "d" = (false, None) ∧
   os.resolve (disk w) (containerPath (store w) "a" "d") = Ok os.Dir) ∧
  (let w := run fresh [CallPutBlob "a" "c" "f" hello "text/plain" ∅] in
   NewFileBlobStore (disk w) ["data"] = Ok (restarted w) ∧
   ContainerExists (restarted w) "a" "c" = (false, None) ∧
   os.resolve (disk (restarted w)) (containerPath (store (restarted w)) "a" "c") = Ok os.Dir).
Proof. vm_compute. repeat split; reflexivity. Qed.

(** C1, amended. For a store made by [NewFileBlobStore] whose blob
    directory is empty, and every sequence of calls whose account and
    container names are single plain path components and whose blob names
    are made of plain components: after the sequence (hence after each
    call of it), a container with such a name is in the index if and only
    if its directory exists on disk. *)
Theorem namespace_index_invariant d dataDir w0 ops a c :
  NewFileBlobStore d dataDir = Ok w0 →
  os.has_children (disk w0) (baseDir (store w0)) = false →
  forallb valid_call ops = true →
  valid_name a = true → valid_name c = true →
  let w := run w0 ops in
  ContainerExists w a c = (true, None) ↔
  os.resolve (disk w) (containerPath (store w) a c) = Ok os.Dir.
Proof.
  intros Hnew Hempty Hops Ha Hc w.
  assert (agree (baseDir (store w0)) w) as [Hbase Hag].
  { apply run_agree; [|done]. by eapply fresh_agree. }
  rewrite ContainerExists_index, containerPath_valid, Hbase by done.
  specialize (Hag a c Ha Hc). destruct (index _ _).
  - done.
  - split; [done|]. intros [_ Hl]%resolve_Ok. congruence.
Qed.

Lemma namespace_index_invariant_witness :
  NewFileBlobStore root_only ["data"] = Ok fresh ∧
  os.has_children (disk fresh) (baseDir (store fresh)) = false ∧
  forallb valid_call invariant_calls = true ∧
  valid_name "acct" = true ∧ valid_name "c2" = true ∧
  (ContainerExists (run fresh invariant_calls) "acct" "c2" = (true, None) ↔
   os.resolve (disk (run fresh invariant_calls))
     (containerPath (store (run fresh invariant_calls)) "acct" "c2") = Ok os.Dir).
Proof.
  do 5 (split; [vm_compute; reflexivity|]).
  apply (namespace_index_invariant root_only ["data"] fresh invariant_calls "acct" "c2");
    vm_compute; reflexivity.
Defined.

(** ** C2: round trip and overwrite *)

(** C2. A successful [PutBlob] followed by [GetBlob] of the same account,
    container and blob name returns the content that was put; after a
    second successful [PutBlob] on the same key [GetBlob] returns the
    second content, and no longer the first when the two differ. *)
Theorem put_get_round_trip w a c b content contentType metadata w1 :
  PutBlob w a c b content contentType metadata = (w1, None) →
  (∃ blob, GetBlob w1 a c b = Ok blob ∧ Blob.Content blob = content) ∧
  (∀ content2 contentType2 metadata2 w2,
     PutBlob w1 a c b content2 contentType2 metadata2 = (w2, None) →
     ∃ blob, GetBlob w2 a c b = Ok blob ∧ Blob.Content blob = content2 ∧
             (content2 ≠ content → Blob.Content blob ≠ content)).
Proof.
  intros H1. split.
  - apply PutBlob_stored in H1 as [Hb Hl]. eexists. split; [by apply GetBlob_file|done].
  - intros content2 ct2 md2 w2 H2. apply PutBlob_stored in H2 as [Hb Hl].
    eexists. split; [by apply GetBlob_file|done].
Qed.

Lemma put_get_round_trip_witness :
  PutBlob fresh "acct" "c1" "f.txt" hello "text/plain" ∅ = (after_put, None) ∧
  (∃ blob, GetBlob after_put "acct" "c1" "f.txt" = Ok blob ∧ Blob.Content blob = hello) ∧
  (∀ content2 contentType2 metadata2 w2,
     PutBlob after_put "acct" "c1" "f.txt" content2 contentType2 metadata2 = (w2, None) →
     ∃ blob, GetBlob w2 "acct" "c1" "f.txt" = Ok blob ∧ Blob.Content blob = content2 ∧
             (content2 ≠ hello → Blob.Content blob ≠ hello)).
Proof.
  split; [vm_compute; reflexivity|].
  apply (put_get_round_trip fresh "acct" "c1" "f.txt" hello "text/plain" ∅ after_put).
  vm_compute; reflexivity.
Defined.

(** ** C3: creating a container twice *)

(** C3. [CreateContainer] fails with [AlreadyExists] if and only if the
    index records the key; after a successful [CreateContainer]
    [ContainerExists] returns true and a second [CreateContainer] on the
    same key fails with [AlreadyExists]; and [CreateContainer] succeeds and
    marks the index when the directory already exists on disk and the index
    does not record the key. *)
Theorem create_container_already_exists w a c :
  ((∃ w' e, CreateContainer w a c = (w', Some e) ∧ kind e = AlreadyExists) ↔
   index (containers (store w)) (containerKey a c) = true) ∧
  (∀ w', CreateContainer w a c = (w', None) →
     ContainerExists w' a c = (true, None) ∧
     CreateContainer w' a c = (w', Some (ContainerAlreadyExists c)) ∧
     kind (ContainerAlreadyExists c) = AlreadyExists) ∧
  (index (containers (store w)) (containerKey a c) = false →
   os.resolve (disk w) (containerPath (store w) a c) = Ok os.Dir →
   ∃ w', CreateContainer w a c = (w', None) ∧ ContainerExists w' a c = (true, None)).
Proof.
  split; [|split].
  - unfold CreateContainer. destruct (index _ _) eqn:Hi.
    + split; [done|]. intros _. by eexists _, _.
    + split; [|done]. intros (w' & e & H & Hk).
      destruct (os.MkdirAll _ _); simplify_eq; try kind_absurd.
  - intros w'. unfold CreateContainer at 1. destruct (index _ _) eqn:Hi; [done|].
    destruct (os.MkdirAll _ _) as [d'|] eqn:E; [|done]. intros [= <-].
    rewrite ContainerExists_index. unfold CreateContainer. simpl.
    by rewrite index_insert_eq.
  - apply CreateContainer_existing_dir.
Qed.

Lemma create_container_already_exists_witness :
  CreateContainer fresh "acct" "c1" = (after_create, None) ∧
  (ContainerExists after_create "acct" "c1" = (true, None) ∧
   CreateContainer after_create "acct" "c1" = (after_create, Some (ContainerAlreadyExists "c1")) ∧
   kind (ContainerAlreadyExists "c1") = AlreadyExists) ∧
  index (containers (store (restarted after_create))) (containerKey "acct" "c1") = false ∧
  os.resolve (disk (restarted after_create))
    (containerPath (store (restarted after_create)) "acct" "c1") = Ok os.Dir ∧
  (∃ w', CreateContainer (restarted after_create) "acct" "c1" = (w', None) ∧
         ContainerExists w' "acct" "c1" = (true, None)).
Proof.
  split; [vm_compute; reflexivity|]. split.
  - destruct (create_container_already_exists fresh "acct" "c1") as (_ & H & _).
    apply H. vm_compute; reflexivity.
  - split; [vm_compute; reflexivity|]. split; [vm_compute; reflexivity|].
    destruct (create_container_already_exists (restarted after_create) "acct" "c1")
      as (_ & _ & H).
    apply H; vm_compute; reflexivity.
Defined.

(** ** C4: listing *)

(** C4, counterexample. The claim lets [ListBlobs] fail with [NotFound]
    exactly when the container directory does not exist. After [f] was put
    into container [c], the path of the container named [c/f] holds a
    regular file, not a directory; [ListBlobs] on it does not fail and
    returns one entry, named [.]. *)
Lemma list_blobs_on_a_file :
  let w := run fresh [CallPutBlob "a" "c" "f" hello "text/plain" ∅] in
  os.resolve (disk w) (containerPath (store w) "a" "c/f") = Ok (os.File hello) ∧
  ListBlobs w "a" "c/f" "" 0 = ([BlobInfo.mk "." "application/octet-stream" 5 ∅], None).
Proof. vm_compute. split; reflexivity. Qed.

(** C4, amended. [ListBlobs] fails with [NotFound] if and only if nothing
    exists at the container path (path resolution ends with ENOENT). When
    the container path is a directory it returns, without error, the
    entries of [listing] cut by [cap]: one entry for each regular file
    below the container directory whose name passes the prefix filter (an
    empty prefix lets every name pass, otherwise the name starts with the
    prefix), in the lexical order of the walk, the first [maxResults] of
    them when [maxResults] is positive and all of them otherwise. The files
    listed are exactly the regular files whose path has the container path
    as a prefix, each once, and the name of a file is the rest of its path
    joined by slashes. *)
Theorem list_blobs_walk w a c prefix maxResults :
  let root := containerPath (store w) a c in
  ((∃ results e, ListBlobs w a c prefix maxResults = (results, Some e) ∧ kind e = NotFound) ↔
   os.resolve (disk w) root = Fail os.ENOENT) ∧
  (os.resolve (disk w) root = Ok os.Dir →
   ListBlobs w a c prefix maxResults = (cap maxResults (listing (disk w) root prefix), None)) ∧
  listing (disk w) root prefix =
    (entry_of root <$>
       filter (λ f, prefix = "" ∨ String.prefix prefix (blob_name root f.1) = true)
         (files_below (disk w) root)) ∧
  NoDup (files_below (disk w) root) ∧
  (∀ q content,
     (q, content) ∈ files_below (disk w) root ↔
     root `prefix_of` q ∧ disk w !! q = Some (os.File content)) ∧
  (∀ rest, rest ≠ [] → blob_name root (root ++ rest) = String.concat "/" rest) ∧
  length (cap maxResults (listing (disk w) root prefix)) =
    (if (0 <? maxResults)%Z
     then Nat.min (Z.to_nat maxResults) (length (listing (disk w) root prefix))
     else length (listing (disk w) root prefix)).
Proof.
  intros root. split; [|split; [|split; [|split; [|split; [|split]]]]].
  - destruct (os.resolve (disk w) root) as [n|e] eqn:E.
    + rewrite (ListBlobs_found _ _ _ _ _ n E). split; [|done].
      by intros (results & e & [= _ ?] & _).
    + unfold ListBlobs, os.Stat, filepath.Walk, os.Lstat. fold root. rewrite E.
      destruct e; simpl; split; try done; try by intros (results & e & [= _ <-] & ?).
      intros _. by eexists _, _.
  - apply ListBlobs_found.
  - unfold listing. f_equal. apply list_filter_iff. intros f.
    unfold passes, filepath.HasPrefix. rewrite orb_True, !Is_true_true, String.eqb_eq. done.
  - apply NoDup_files_below.
  - apply elem_of_files_below.
  - apply blob_name_below.
  - apply length_cap.
Qed.

Lemma list_blobs_walk_witness :
  os.resolve (disk three_blobs) (containerPath (store three_blobs) "acct" "c1") = Ok os.Dir ∧
  ListBlobs three_blobs "acct" "c1" "a/" 1 =
    (cap 1 (listing (disk three_blobs) (containerPath (store three_blobs) "acct" "c1") "a/"),
     None) ∧
  ListBlobs three_blobs "acct" "c1" "a/" 1 =
    ([BlobInfo.mk "a/x" "application/octet-stream" 5 ∅], None) ∧
  (BlobInfo.Name <$> (ListBlobs three_blobs "acct" "c1" "a/" 0).1) = ["a/x"; "a/y"].
Proof.
  split; [vm_compute; reflexivity|]. split; [|split; vm_compute; reflexivity].
  destruct (list_blobs_walk three_blobs "acct" "c1" "a/" 1) as (_ & H & _).
  apply H. vm_compute; reflexivity.
Defined.

(** ** C5: implicit creation of the container *)


Section implicit_creation.
Implicit Types (w : world) (a c b : string).



End implicit_creation.



(** ** C6: empty names *)

(** C6, counterexample. The claim lets the store fail with
    [InvalidArgument] on an empty name. On the fresh store
    [CreateContainer] with an empty account and an empty container name
    returns no error and records the key; [PutBlob] with an empty blob name
    fails, but on writing to the container directory, which is an I/O
    error. *)
Lemma create_container_empty_names :
  (CreateContainer fresh "" "").2 = None ∧
  ContainerExists (CreateContainer fresh "" "").1 "" "" = (true, None) ∧
  (PutBlob fresh "a" "c" "" hello "text/plain" ∅).2 =
    Some (Wrapped "failed to write blob"
            (os.mkPathError "open" ["data"; "blob"; "a"; "c"] os.EISDIR)) ∧
  kind (Wrapped "failed to write blob"
          (os.mkPathError "open" ["data"; "blob"; "a"; "c"] os.EISDIR)) = IOError.
Proof. vm_compute. repeat split; reflexivity. Qed.

(** C6, amended. Empty names are refused by the request adapter, not by
    the store: a handler whose request has an empty account or container
    name (or, for the blob handlers, an empty blob name) answers with
    status 400 and code [InvalidRequest] and leaves the store and the disk
    as they are. The store makes no [InvalidArgument] error; an empty name
    is dropped when the path is joined, so that the operation runs on the
    directory above. *)
Theorem empty_names_stop_at_the_adapter w r :
  (URLParam r "account" = "" ∨ URLParam r "container" = "" →
   let refused := (w, writeError http.StatusBadRequest "InvalidRequest"
                        "Account and container name are required") in
   handleCreateContainer w r = refused ∧
   handleDeleteContainer w r = refused ∧
   handleListBlobs w r = refused) ∧
  (URLParam r "account" = "" ∨ URLParam r "container" = "" ∨ URLParam r "blobName" = "" →
   let refused := (w, writeError http.StatusBadRequest "InvalidRequest"
                        "Account, container, and blob name are required") in
   handlePutBlob w r = refused ∧
   handleGetBlob w r = refused ∧
   handleDeleteBlob w r = refused) ∧
  (∀ e, kind e ≠ InvalidArgument) ∧
  (∀ s a c,
     containerPath s a "" = filepath.Join (baseDir s) [a] ∧
     containerPath s "" c = filepath.Join (baseDir s) [c] ∧
     blobPath s a c "" = containerPath s a c).
Proof.
  split; [|split; [|split]].
  - intros H refused.
    assert (String.eqb (URLParam r "account") "" || String.eqb (URLParam r "container") ""
            = true) as Hg.
    { destruct H as [-> | ->]; [done|]. apply orb_true_r. }
    unfold handleCreateContainer, handleDeleteContainer, handleListBlobs. by rewrite Hg.
  - intros H refused.
    assert (String.eqb (URLParam r "account") "" || String.eqb (URLParam r "container") ""
            || String.eqb (URLParam r "blobName") "" = true) as Hg.
    { destruct H as [-> | [-> | ->]]; [done| |apply orb_true_r].
      rewrite orb_true_r. done. }
    unfold handlePutBlob, handleGetBlob, handleDeleteBlob. by rewrite Hg.
  - intros [] ; simpl; try done. by case_decide.
  - intros s a c. done.
Qed.

Lemma empty_names_stop_at_the_adapter_witness :
  URLParam (request_for "" "c1" "f.txt") "account" = "" ∧
  (handleCreateContainer fresh (request_for "" "c1" "f.txt")).2 =
    mkResponse 400 (ErrorPayload "InvalidRequest" "Account and container name are required") ∧
  URLParam (request_for "acct" "c1" "") "blobName" = "" ∧
  handlePutBlob fresh (request_for "acct" "c1" "") =
    (fresh, mkResponse 400
              (ErrorPayload "InvalidRequest" "Account, container, and blob name are required")).
Proof.
  split; [vm_compute; reflexivity|]. split.
  - destruct (empty_names_stop_at_the_adapter fresh (request_for "" "c1" "f.txt"))
      as (H & _).
    destruct H as (-> & _); [left; vm_compute; reflexivity|reflexivity].
  - split; [vm_compute; reflexivity|].
    destruct (empty_names_stop_at_the_adapter fresh (request_for "acct" "c1" ""))
      as (_ & H & _).
    destruct H as (-> & _); [right; right; vm_compute; reflexivity|reflexivity].
Defined.

(** ** C7: deleting a container *)

(** C7, counterexample. The claim lets every blob stored in a deleted
    container be gone. The blob put as [../d/x] in container [c] lies
    outside the directory of [c]: after [DeleteContainer] succeeds,
    [GetBlob] with the same names still returns it. *)
Lemma blob_outlives_its_container :
  let w1 := (PutBlob fresh "a" "c" "../d/x" hello "text/plain" ∅).1 in
  let w2 := (DeleteContainer w1 "a" "c").1 in
  (PutBlob fresh "a" "c" "../d/x" hello "text/plain" ∅).2 = None ∧
  (DeleteContainer w1 "a" "c").2 = None ∧
  ContainerExists w2 "a" "c" = (false, None) ∧
  GetBlob w2 "a" "c" "../d/x" =
    Ok (Blob.mk "../d/x" "c" "a" hello "application/octet-stream" 5 ∅).
Proof. vm_compute. repeat split; reflexivity. Qed.

(** C7, amended. [DeleteContainer] fails with [NotFound] if and only if
    the index does not record the key. On success [ContainerExists]
    returns false, nothing is left at or below the container path, the
    rest of the disk is unchanged, and [GetBlob] fails with [NotFound] for
    every blob that [GetBlob] returned before the deletion and whose path
    lies at or below the container path. *)
Theorem delete_container_not_found w a c :
  ((∃ w' e, DeleteContainer w a c = (w', Some e) ∧ kind e = NotFound) ↔
   index (containers (store w)) (containerKey a c) = false) ∧
  (∀ w', DeleteContainer w a c = (w', None) →
     ContainerExists w' a c = (false, None) ∧
     (∀ q, containerPath (store w) a c `prefix_of` q → disk w' !! q = None) ∧
     (∀ q, ¬ containerPath (store w) a c `prefix_of` q → disk w' !! q = disk w !! q) ∧
     (∀ b blob, GetBlob w a c b = Ok blob →
           containerPath (store w) a c `prefix_of` blobPath (store w) a c b →
           GetBlob w' a c b = Fail (BlobDoesNotExist b) ∧
           kind (BlobDoesNotExist b) = NotFound)).
Proof.
  split.
  - unfold DeleteContainer. destruct (index _ _) eqn:Hi; simpl.
    + split; [|done]. intros (w' & e & H & Hk).
      destruct (os.RemoveAll _ _); simplify_eq; try kind_absurd.
    + split; [done|]. intros _. by eexists _, _.
  - intros w'. unfold DeleteContainer. destruct (index _ _) eqn:Hi; simpl; [|done].
    destruct (os.RemoveAll _ _) as [d|] eqn:E; [|done]. intros [= <-].
    apply RemoveAll_Ok in E as [Hb Hl].
    rewrite ContainerExists_index. simpl. rewrite index_delete_eq.
    split; [done|]. split; [|split].
    + intros q Hq. rewrite Hl. by rewrite decide_True.
    + intros q Hq. rewrite Hl. by rewrite decide_False.
    + intros b blob _ Hpre. split; [|done]. unfold GetBlob, os.ReadFile. simpl.
      set (cp := containerPath (store w) a c) in *.
      set (bp := blobPath _ a c b) in *.
      assert (os.resolve d bp = Fail os.ENOENT) as ->; [|done].
      apply resolve_ENOENT. split; [|by rewrite Hl, decide_True].
      apply blocked_false. intros q Hq Hne. unfold os.is_file. rewrite Hl.
      case_decide; [done|].
      destruct (prefix_weak_total _ _ _ Hq Hpre) as [Hqc|]; [|done].
      rewrite blocked_false in Hb. apply Hb; [done|]. by intros ->.
Qed.

Lemma delete_container_not_found_witness :
  DeleteContainer after_put "acct" "c1" = ((DeleteContainer after_put "acct" "c1").1, None) ∧
  GetBlob after_put "acct" "c1" "f.txt" =
    Ok (Blob.mk "f.txt" "c1" "acct" hello "application/octet-stream" 5 ∅) ∧
  containerPath (store after_put) "acct" "c1" `prefix_of`
    blobPath (store after_put) "acct" "c1" "f.txt" ∧
  ContainerExists (DeleteContainer after_put "acct" "c1").1 "acct" "c1" = (false, None) ∧
  GetBlob (DeleteContainer after_put "acct" "c1").1 "acct" "c1" "f.txt" =
    Fail (BlobDoesNotExist "f.txt").
Proof.
  assert (containerPath (store after_put) "acct" "c1" `prefix_of`
          blobPath (store after_put) "acct" "c1" "f.txt") as Hpre.
  { exists ["f.txt"]. vm_compute. reflexivity. }
  assert (GetBlob after_put "acct" "c1" "f.txt" =
            Ok (Blob.mk "f.txt" "c1" "acct" hello "application/octet-stream" 5 ∅)) as Hget
    by (vm_compute; reflexivity).
  split; [vm_compute; reflexivity|]. split; [exact Hget|]. split; [exact Hpre|].
  destruct (delete_container_not_found after_put "acct" "c1") as (_ & H).
  destruct (H (DeleteContainer after_put "acct" "c1").1) as (H1 & _ & _ & H4);
    [vm_compute; reflexivity|].
  split; [exact H1|]. exact (proj1 (H4 "f.txt" _ Hget Hpre)).
Defined.

(** ** C8: content type and metadata on reads *)

(** C8. The content type and the metadata passed to [PutBlob] have no
    effect on its result; every blob [GetBlob] returns and every entry
    [ListBlobs] returns carries the content type
    [application/octet-stream] and an empty metadata map. *)
Theorem reads_report_placeholders :
  (∀ w a c b content contentType metadata contentType' metadata',
     PutBlob w a c b content contentType metadata =
     PutBlob w a c b content contentType' metadata') ∧
  (∀ w a c b blob,
     GetBlob w a c b = Ok blob →
     Blob.ContentType blob = "application/octet-stream" ∧ Blob.Metadata blob = ∅) ∧
  (∀ w a c prefix maxResults info,
     info ∈ (ListBlobs w a c prefix maxResults).1 →
     BlobInfo.ContentType info = "application/octet-stream" ∧ BlobInfo.Metadata info = ∅).
Proof.
  split; [done|split].
  - intros w a c b blob. unfold GetBlob.
    destruct (os.ReadFile _ _) as [content|e]; [|by destruct (os.IsNotExist e)].
    destruct (os.Stat _ _); [|done]. by intros [= <-].
  - intros w a c prefix maxResults info. unfold ListBlobs.
    destruct (match os.Stat _ _ with Ok _ => _ | Fail _ => _ end).
    { by intros ?%elem_of_nil. }
    destruct (filepath.Walk _ _ _ _) as [results err] eqn:E. simpl.
    assert (Forall (λ i, BlobInfo.ContentType i = "application/octet-stream" ∧
                         BlobInfo.Metadata i = ∅) results) as HF.
    { unfold filepath.Walk in E. destruct (os.Lstat _ _).
      - pose proof (walk_loop_list_visit_Forall
          (λ i, BlobInfo.ContentType i = "application/octet-stream" ∧ BlobInfo.Metadata i = ∅)
          (containerPath (store w) a c) prefix maxResults
          (filepath.walk_order (disk w) (containerPath (store w) a c)) []) as H.
        rewrite E in H. apply H; [done|constructor].
      - simpl in E. by injection E as <- _. }
    rewrite Forall_forall in HF. apply HF.
Qed.

Lemma reads_report_placeholders_witness :
  (∃ blob, GetBlob after_put "acct" "c1" "f.txt" = Ok blob ∧
           Blob.ContentType blob = "application/octet-stream" ∧ Blob.Metadata blob = ∅) ∧
  BlobInfo.mk "f.txt" "application/octet-stream" 5 ∅ ∈ (ListBlobs after_put "acct" "c1" "" 0).1 ∧
  (∀ info, info ∈ (ListBlobs after_put "acct" "c1" "" 0).1 →
     BlobInfo.ContentType info = "application/octet-stream" ∧ BlobInfo.Metadata info = ∅).
Proof.
  destruct reads_report_placeholders as (_ & Hget & Hlist). split.
  - exists (Blob.mk "f.txt" "c1" "acct" hello "application/octet-stream" 5 ∅).
    split; [vm_compute; reflexivity|].
    apply (Hget after_put "acct" "c1" "f.txt"). vm_compute; reflexivity.
  - split; [vm_compute; apply list_elem_of_here|].
    apply (Hlist after_put "acct" "c1" "" 0%Z).
Defined.

(** ** C9: deleting a blob *)




(** ** C10: deleting a blob leaves the index alone *)

(** C10. [DeleteBlob], whether it succeeds or fails, leaves the index as it
    is, so [ContainerExists] answers after it as before it for every
    account and container; the container of the blob is one of them, also
    when the blob was its last. *)
Theorem delete_blob_keeps_index w a c b :
  containers (store (DeleteBlob w a c b).1) = containers (store w) ∧
  ∀ a' c', ContainerExists (DeleteBlob w a c b).1 a' c' = ContainerExists w a' c'.
Proof.
  assert (store (DeleteBlob w a c b).1 = store w) as Hs.
  { unfold DeleteBlob. destruct (os.Remove _ _) as [d|e]; [done|]. by destruct (os.IsNotExist e). }
  split; [by rewrite Hs|]. intros a' c'. by rewrite !ContainerExists_index, Hs.
Qed.

(** The last blob of [c1] is deleted and the container still exists. *)
Example last_blob_deleted :
  (ListBlobs after_put "acct" "c1" "" 0).1 = [BlobInfo.mk "f.txt" "application/octet-stream" 5 ∅] ∧
  DeleteBlob after_put "acct" "c1" "f.txt" = ((DeleteBlob after_put "acct" "c1" "f.txt").1, None) ∧
  ListBlobs (DeleteBlob after_put "acct" "c1" "f.txt").1 "acct" "c1" "" 0 = ([], None) ∧
  ContainerExists (DeleteBlob after_put "acct" "c1" "f.txt").1 "acct" "c1" = (true, None).
Proof. vm_compute. repeat split; reflexivity. Qed.

(** * Further properties of the code *)

(** ** More facts about the store *)

Section more_store_facts.
Implicit Types (w : world) (a c b : string) (d : os.fs) (p q : path).

Lemma MkdirAll_lookup_file d p d' q content :
  os.MkdirAll d p = Ok d' →
  d' !! q = Some (os.File content) ↔ d !! q = Some (os.File content).
Proof.
  intros E. rewrite (MkdirAll_lookup _ _ _ _ E). case_decide as Hq; [|done].
  apply MkdirAll_Ok in E as [Hnf _]. specialize (Hnf q Hq). unfold os.is_file in Hnf.
  split; [done|]. intros Hl. by rewrite Hl in Hnf.
Qed.

Lemma MkdirAll_Fail_errno d p e :
  os.MkdirAll d p = Fail e → os.Op e = "mkdir" ∧ os.Err e = os.ENOTDIR.
Proof. unfold os.MkdirAll. destruct (find _ _); [|done]. by intros [= <-]. Qed.

(** [blocked] can only go from true to false when files disappear. *)
Lemma blocked_fewer_files d d' p :
  (∀ q, os.is_file d' q = true → os.is_file d q = true) →
  os.blocked d p = false → os.blocked d' p = false.
Proof.
  rewrite !blocked_false. intros H Hb q Hq Hne.
  destruct (os.is_file d' q) eqn:E; [|done]. apply H in E. by rewrite Hb in E.
Qed.

Lemma GetBlob_Ok w a c b blob :
  GetBlob w a c b = Ok blob ↔
  ∃ content,
    os.resolve (disk w) (blobPath (store w) a c b) = Ok (os.File content) ∧
    blob = Blob.mk b c a content "application/octet-stream" (Z.of_nat (length content)) ∅.
Proof.
  unfold GetBlob, os.ReadFile, os.Stat.
  destruct (os.resolve _ _) as [[content|]|e] eqn:E; simpl.
  - split; [intros [= <-]; by exists content|]. by intros (? & [= <-] & ->).
  - split; [done|]. by intros (? & [=] & _).
  - split; [by destruct (os.IsNotExist _)|]. by intros (? & [=] & _).
Qed.

(** After a successful [PutBlob] the blob path is not the root and
    everything above it is a directory. *)
Lemma PutBlob_ancestors w a c b content ct md w' :
  PutBlob w a c b content ct md = (w', None) →
  blobPath (store w) a c b ≠ [] ∧
  ∀ q, q `prefix_of` blobPath (store w) a c b → q ≠ blobPath (store w) a c b →
       disk w' !! q = Some os.Dir.
Proof.
  intros (d1 & d2 & _ & E2 & E3 & _)%PutBlob_Ok.
  set (bp := blobPath (store w) a c b) in *.
  apply WriteFile_Ok in E3 as (_ & Hnd & ->).
  assert (bp ≠ []) as Hbp.
  { intros E. apply Hnd. rewrite (MkdirAll_lookup _ _ _ _ E2), decide_True; [done|].
    rewrite E. apply prefix_nil. }
  split; [done|]. intros q Hq Hne. rewrite lookup_insert_ne by done.
  rewrite (MkdirAll_lookup _ _ _ _ E2), decide_True; [done|].
  unfold filepath.Dir. by apply prefix_removelast.
Qed.

(** File contents other than the blob written are as before. *)
Lemma PutBlob_other_files w a c b content ct md w' q content' :
  PutBlob w a c b content ct md = (w', None) →
  q ≠ blobPath (store w) a c b →
  disk w' !! q = Some (os.File content') ↔ disk w !! q = Some (os.File content').
Proof.
  intros (d1 & d2 & E1 & E2 & E3 & _)%PutBlob_Ok Hne.
  apply WriteFile_Ok in E3 as (_ & _ & ->). rewrite lookup_insert_ne by done.
  rewrite (MkdirAll_lookup_file _ _ _ _ _ E2).
  destruct (index _ _); [by subst|]. by rewrite (MkdirAll_lookup_file _ _ _ _ _ E1).
Qed.
End more_store_facts.

(** ** What the calls leave alone *)

Section frames.
Implicit Types (w : world) (a c b : string) (d : os.fs) (p q : path).

(** [PutBlob] changes one blob: on a well-formed disk every other blob
    that could be read before a successful [PutBlob] reads the same after
    it, in whatever account and container it lies. *)
Theorem put_blob_keeps_other_blobs w a c b content contentType metadata w' a' c' b' blob :
  well_formed (disk w) →
  PutBlob w a c b content contentType metadata = (w', None) →
  GetBlob w a' c' b' = Ok blob →
  blobPath (store w) a' c' b' ≠ blobPath (store w) a c b →
  GetBlob w' a' c' b' = Ok blob.
Proof.
  intros Hwf Hput [content' [[_ Hl]%resolve_Ok ->]]%GetBlob_Ok Hne.
  apply GetBlob_Ok. exists content'. split; [|done].
  assert (baseDir (store w') = baseDir (store w)) as Hbase.
  { by apply PutBlob_Ok in Hput as (? & ? & _ & _ & _ & ? & _). }
  unfold blobPath, containerPath in *. rewrite Hbase.
  apply well_formed_resolve.
  - pose proof (well_formed_exec w (CallPutBlob a c b content contentType metadata) Hwf) as H.
    simpl in H. by rewrite Hput in H.
  - by apply (PutBlob_other_files _ _ _ _ _ _ _ _ _ _ Hput).
Qed.

Lemma put_blob_keeps_other_blobs_witness :
  well_formed (disk after_put) ∧
  GetBlob (PutBlob after_put "acct" "c2" "f.txt" world_bytes "text/plain" ∅).1 "acct" "c1" "f.txt" =
    Ok (Blob.mk "f.txt" "c1" "acct" hello "application/octet-stream" 5 ∅).
Proof.
  assert (well_formed (disk after_put)) as Hwf.
  { apply (well_formed_run root_only ["data"] fresh
             [CallPutBlob "acct" "c1" "f.txt" hello "text/plain" ∅]
             well_formed_root_only fresh_is_new). }
  split; [exact Hwf|].
  apply (put_blob_keeps_other_blobs after_put "acct" "c2" "f.txt" world_bytes "text/plain" ∅
           (PutBlob after_put "acct" "c2" "f.txt" world_bytes "text/plain" ∅).1
           "acct" "c1" "f.txt" _ Hwf).
  - vm_compute; reflexivity.
  - vm_compute; reflexivity.
  - vm_compute. discriminate.
Defined.

(** The deletions remove what they name and nothing else: a blob outside
    the directory of a deleted container, or other than a deleted blob,
    reads after the deletion as before. *)
Theorem deletes_keep_other_blobs w a c a' c' b' blob :
  GetBlob w a' c' b' = Ok blob →
  (∀ w', DeleteContainer w a c = (w', None) →
         ¬ containerPath (store w) a c `prefix_of` blobPath (store w) a' c' b' →
         GetBlob w' a' c' b' = Ok blob) ∧
  (∀ b w', DeleteBlob w a c b = (w', None) →
           blobPath (store w) a' c' b' ≠ blobPath (store w) a c b →
           GetBlob w' a' c' b' = Ok blob).
Proof.
  intros [content' [[Hb Hl]%resolve_Ok ->]]%GetBlob_Ok. split.
  - intros w'. unfold DeleteContainer. destruct (index _ _); simpl; [|done].
    destruct (os.RemoveAll _ _) as [d'|] eqn:E; [|done]. intros [= <-] Hnp.
    apply RemoveAll_Ok in E as [_ Hd]. apply GetBlob_Ok. exists content'. split; [|done].
    simpl. apply resolve_Ok. split.
    + apply (blocked_fewer_files (disk w)); [|done]. intros q. unfold os.is_file.
      rewrite Hd. by case_decide.
    + rewrite Hd. by rewrite decide_False.
  - intros b w'. unfold DeleteBlob. destruct (os.Remove _ _) as [d'|e] eqn:E;
      [|by destruct (os.IsNotExist e)].
    intros [= <-] Hne. apply Remove_Ok in E as (_ & _ & ->).
    apply GetBlob_Ok. exists content'. split; [|done]. simpl. apply resolve_Ok. split.
    + apply (blocked_fewer_files (disk w)); [|done]. intros q. unfold os.is_file.
      destruct (decide (q = blobPath (store w) a c b)) as [->|];
        [by rewrite lookup_delete_eq|by rewrite lookup_delete_ne].
    + by rewrite lookup_delete_ne.
Qed.
Lemma deletes_keep_other_blobs_witness :
  GetBlob two_containers "acct" "c2" "g" =
    Ok (Blob.mk "g" "c2" "acct" world_bytes "application/octet-stream" 5 ∅) ∧
  GetBlob (DeleteContainer two_containers "acct" "c1").1 "acct" "c2" "g" =
    Ok (Blob.mk "g" "c2" "acct" world_bytes "application/octet-stream" 5 ∅) ∧
  GetBlob (DeleteBlob two_containers "acct" "c1" "dir/f.txt").1 "acct" "c2" "g" =
    Ok (Blob.mk "g" "c2" "acct" world_bytes "application/octet-stream" 5 ∅).
Proof.
  assert (GetBlob two_containers "acct" "c2" "g" =
            Ok (Blob.mk "g" "c2" "acct" world_bytes "application/octet-stream" 5 ∅)) as H
    by (vm_compute; reflexivity).
  split; [exact H|].
  destruct (deletes_keep_other_blobs two_containers "acct" "c1" "acct" "c2" "g" _ H) as [H1 H2].
  split.
  - apply H1; [vm_compute; reflexivity|]. intros [k Hk]. vm_compute in Hk. discriminate.
  - apply (H2 "dir/f.txt"); [vm_compute; reflexivity|]. vm_compute. discriminate.
Defined.
End frames.

Section index_frame.
Implicit Types (w : world) (a c b : string).

Lemma PutBlob_index_other w a c b content ct md key :
  key ≠ containerKey a c →
  index (containers (store (PutBlob w a c b content ct md).1)) key =
  index (containers (store w)) key.
Proof.
  intros Hne. unfold PutBlob.
  destruct (index _ (containerKey a c)); simpl.
  - destruct (os.MkdirAll _ _); [|done]. by destruct (os.WriteFile _ _ _).
  - destruct (os.MkdirAll (disk w) _); [|done]. simpl.
    destruct (os.MkdirAll _ _); simpl; [|by rewrite index_insert_ne].
    destruct (os.WriteFile _ _ _); simpl; by rewrite index_insert_ne.
Qed.
End index_frame.

(** ** The index *)

Section index_properties.
Implicit Types (w : world) (a c b : string) (d : os.fs) (p q : path).

(** The keys of other containers read the same after every call of the
    store that can change the index. *)
Theorem index_changes_one_key w a c key :
  key ≠ containerKey a c →
  (index (containers (store (CreateContainer w a c).1)) key = index (containers (store w)) key) ∧
  (index (containers (store (DeleteContainer w a c).1)) key = index (containers (store w)) key) ∧
  (∀ b content contentType metadata,
     index (containers (store (PutBlob w a c b content contentType metadata).1)) key =
     index (containers (store w)) key).
Proof.
  intros Hne. split; [|split].
  - unfold CreateContainer. destruct (index _ (containerKey a c)); [done|].
    destruct (os.MkdirAll _ _); [|done]. simpl. by rewrite index_insert_ne.
  - unfold DeleteContainer. destruct (index _ (containerKey a c)); simpl; [|done].
    destruct (os.RemoveAll _ _); [|done]. simpl. by rewrite index_delete_ne.
  - intros b content ct md. by apply PutBlob_index_other.
Qed.

Lemma index_changes_one_key_witness :
  ContainerExists after_create "acct" "c1" = (true, None) ∧
  index (containers (store (DeleteContainer after_create "acct" "c2").1)) (containerKey "acct" "c1") = true ∧
  index (containers (store (CreateContainer after_create "acct" "c2").1)) (containerKey "acct" "c1") = true ∧
  index (containers (store (PutBlob after_create "acct" "c2" "g" hello "" ∅).1))
    (containerKey "acct" "c1") = true.
Proof.
  assert (index (containers (store after_create)) (containerKey "acct" "c1") = true) as Hi
    by (vm_compute; reflexivity).
  split; [vm_compute; reflexivity|].
  destruct (index_changes_one_key after_create "acct" "c2" (containerKey "acct" "c1"))
    as (H1 & H2 & H3); [vm_compute; discriminate|].
  rewrite H1, H2, H3. done.
Defined.

(** [PutBlob] records the container before it writes the blob: when it
    fails after the container step, the container exists all the same. *)
Theorem put_blob_failure_keeps_container w a c b content contentType metadata w' e :
  PutBlob w a c b content contentType metadata = (w', Some e) →
  (∀ err, e ≠ Wrapped "failed to ensure container directory" err) →
  ContainerExists w' a c = (true, None).
Proof.
  intros H Hne. rewrite ContainerExists_index. f_equal. revert H. unfold PutBlob.
  destruct (index (containers (store w)) (containerKey a c)) eqn:Hi; cbn [negb].
  - destruct (os.MkdirAll _ _); [|by intros [= <- <-]].
    destruct (os.WriteFile _ _ _); [done|]. by intros [= <- <-].
  - destruct (os.MkdirAll (disk w) _) as [d1|e1]; [|intros [= <- <-]; by destruct (Hne e1)].
    cbn [store disk].
    destruct (os.MkdirAll d1 _); [|intros [= <- <-]; apply index_insert_eq].
    destruct (os.WriteFile _ _ _); [done|]. intros [= <- <-]. apply index_insert_eq.
Qed.
Lemma put_blob_failure_keeps_container_witness :
  ContainerExists fresh "acct" "c9" = (false, None) ∧
  (PutBlob fresh "acct" "c9" "" hello "text/plain" ∅).2 =
    Some (Wrapped "failed to write blob"
            (os.mkPathError "open" ["data"; "blob"; "acct"; "c9"] os.EISDIR)) ∧
  ContainerExists (PutBlob fresh "acct" "c9" "" hello "text/plain" ∅).1 "acct" "c9" = (true, None).
Proof.
  split; [vm_compute; reflexivity|]. split; [vm_compute; reflexivity|].
  apply (put_blob_failure_keeps_container fresh "acct" "c9" "" hello "text/plain" ∅ _
           (Wrapped "failed to write blob"
              (os.mkPathError "open" ["data"; "blob"; "acct"; "c9"] os.EISDIR))).
  - vm_compute; reflexivity.
  - intros err. discriminate.
Defined.
End index_properties.

(** ** Names that contain separators *)

Section joined_names.
Implicit Types (w : world) (a c b : string) (p q : path) (s : FileBlobStore) (str : string).

Lemma Clean_onto_app_slash p (s1 s2 : string) :
  filepath.Clean_onto p (s1 +:+ "/" +:+ s2) = filepath.Clean_onto (filepath.Clean_onto p s1) s2.
Proof. unfold filepath.Clean_onto. by rewrite split_sep_app_slash, foldl_app. Qed.

Lemma concat_split_sep str : String.concat "/" (filepath.split_sep str) = str.
Proof.
  induction str as [|x str IH]; [done|]. simpl.
  pose proof (split_sep_nonempty str) as Hne.
  destruct (Ascii.eqb x "/") eqn:Ex.
  - apply Ascii.eqb_eq in Ex as ->.
    destruct (filepath.split_sep str) as [|h t]; [done|]. simpl in *. by rewrite IH.
  - destruct (filepath.split_sep str) as [|h t]; [done|]. simpl in *.
    destruct t; simpl in *; by rewrite <-IH.
Qed.

(** The directory of a container is read off its index key: two names with
    the same key have the same directory. *)
Theorem container_key_determines_path s a c a' c' :
  containerPath s a c = filepath.Clean_onto (baseDir s) (containerKey a c) ∧
  (containerKey a c = containerKey a' c' → containerPath s a c = containerPath s a' c').
Proof.
  assert (∀ x y, containerPath s x y = filepath.Clean_onto (baseDir s) (containerKey x y)) as H.
  { intros x y. unfold containerKey. by rewrite Clean_onto_app_slash. }
  split; [apply H|]. intros E. by rewrite !H, E.
Qed.

Lemma container_key_determines_path_witness :
  containerKey "x" "y/z" = containerKey "x/y" "z" ∧
  containerPath (store fresh) "x" "y/z" = containerPath (store fresh) "x/y" "z".
Proof.
  split; [reflexivity|].
  apply (proj2 (container_key_determines_path (store fresh) "x" "y/z" "x/y" "z")).
  reflexivity.
Defined.

Lemma blobPath_slides s a c (d : string) x :
  blobPath s a (c +:+ "/" +:+ d) x = blobPath s a c (d +:+ "/" +:+ x).
Proof.
  unfold blobPath, containerPath, filepath.Join. simpl. by rewrite !Clean_onto_app_slash.
Qed.

Lemma string_length_app (s1 s2 : string) :
  String.length (s1 +:+ s2) = String.length s1 + String.length s2.
Proof. induction s1 as [|x s1 IH]; simpl; [done|]. by rewrite IH. Qed.

(** A slash moves freely between the container name and the blob name:
    the blob [x] of container [c/d] is the blob [d/x] of container [c],
    whether or not the index knows a container [c]. *)
Theorem blob_names_slide w a c (d : string) x content contentType metadata w' :
  PutBlob w a (c +:+ "/" +:+ d) x content contentType metadata = (w', None) →
  GetBlob w' a c (d +:+ "/" +:+ x) =
    Ok (Blob.mk (d +:+ "/" +:+ x) c a content "application/octet-stream"
          (Z.of_nat (length content)) ∅) ∧
  ContainerExists w' a c = ContainerExists w a c.
Proof.
  intros Hput. split.
  - apply PutBlob_stored in Hput as [Hb Hl]. rewrite blobPath_slides in Hb, Hl.
    by apply GetBlob_file.
  - rewrite !ContainerExists_index. f_equal.
    rewrite <-(PutBlob_index_other w a (c +:+ "/" +:+ d) x content contentType metadata);
      [by rewrite Hput|].
    unfold containerKey. intros E. apply (f_equal String.length) in E.
    rewrite !string_length_app in E. simpl in E. lia.
Qed.
Lemma blob_names_slide_witness :
  PutBlob fresh "acct" "c1/dir" "f.txt" hello "text/plain" ∅ =
    ((PutBlob fresh "acct" "c1/dir" "f.txt" hello "text/plain" ∅).1, None) ∧
  GetBlob (PutBlob fresh "acct" "c1/dir" "f.txt" hello "text/plain" ∅).1 "acct" "c1" "dir/f.txt" =
    Ok (Blob.mk "dir/f.txt" "c1" "acct" hello "application/octet-stream" 5 ∅) ∧
  ContainerExists (PutBlob fresh "acct" "c1/dir" "f.txt" hello "text/plain" ∅).1 "acct" "c1" =
    (false, None).
Proof.
  split; [vm_compute; reflexivity|].
  destruct (blob_names_slide fresh "acct" "c1" "dir" "f.txt" hello "text/plain" ∅
              (PutBlob fresh "acct" "c1/dir" "f.txt" hello "text/plain" ∅).1) as [H1 H2].
  - vm_compute; reflexivity.
  - split; [exact H1|]. rewrite H2. vm_compute; reflexivity.
Defined.
End joined_names.

(** ** Names that climb out of the container *)

Section traversal.
Implicit Types (w : world) (a c b : string) (s : FileBlobStore).

Lemma blobPath_climbs s a c (c' : string) b :
  valid_name c = true →
  blobPath s a c ("../" +:+ c' +:+ "/" +:+ b) = blobPath s a c' b.
Proof.
  intros Hc. unfold blobPath, containerPath, filepath.Join. simpl.
  change ("../" +:+ c' +:+ "/" +:+ b) with (".." +:+ "/" +:+ (c' +:+ "/" +:+ b)).
  rewrite !Clean_onto_app_slash, (Clean_onto_valid_name _ c Hc).
  do 2 f_equal. unfold filepath.Clean_onto at 1. simpl. unfold filepath.push. simpl.
  apply removelast_last.
Qed.

(** The store does not keep a blob name inside its container: for a plain
    container name [c], the blob name [../c'/b] in [c] is the blob [b] of
    the container [c'] of the same account, for reading, for writing and
    for deleting. *)
Theorem blob_names_reach_sibling_containers w a c (c' : string) b :
  valid_name c = true →
  let b' := "../" +:+ c' +:+ "/" +:+ b in
  (∀ blob, GetBlob w a c' b = Ok blob →
     GetBlob w a c b' =
       Ok (Blob.mk b' c a (Blob.Content blob) "application/octet-stream"
             (Z.of_nat (length (Blob.Content blob))) ∅)) ∧
  (∀ content contentType metadata w',
     PutBlob w a c b' content contentType metadata = (w', None) →
     GetBlob w' a c' b =
       Ok (Blob.mk b c' a content "application/octet-stream" (Z.of_nat (length content)) ∅)) ∧
  (∀ w', DeleteBlob w a c b' = (w', None) → DeleteBlob w a c' b = (w', None)).
Proof.
  intros Hc b'. split; [|split].
  - intros blob (content & Hres & ->)%GetBlob_Ok. apply GetBlob_Ok. exists content.
    unfold b'. by rewrite blobPath_climbs.
  - intros content ct md w' [Hb Hl]%PutBlob_stored. unfold b' in *.
    rewrite blobPath_climbs in Hb, Hl by done. by apply GetBlob_file.
  - intros w'. unfold DeleteBlob, b'. rewrite blobPath_climbs by done.
    destruct (os.Remove _ _) as [d|e]; [done|]. by destruct (os.IsNotExist e).
Qed.

Lemma blob_names_reach_sibling_containers_witness :
  valid_name "c1" = true ∧
  GetBlob two_containers "acct" "c1" "../c2/g" =
    Ok (Blob.mk "../c2/g" "c1" "acct" world_bytes "application/octet-stream" 5 ∅) ∧
  DeleteBlob two_containers "acct" "c2" "g" =
    ((DeleteBlob two_containers "acct" "c1" "../c2/g").1, None).
Proof.
  split; [reflexivity|].
  destruct (blob_names_reach_sibling_containers two_containers "acct" "c1" "c2" "g")
    as (H1 & _ & H3); [reflexivity|].
  split.
  - apply (H1 (Blob.mk "g" "c2" "acct" world_bytes "application/octet-stream" 5 ∅)).
    vm_compute; reflexivity.
  - apply H3. vm_compute; reflexivity.
Defined.
End traversal.

(** ** Listings *)

Section listing_properties.
Implicit Types (w : world) (a c b : string) (p q : path).

Lemma elem_of_listing d root prefix info :
  info ∈ listing d root prefix ↔
  ∃ f, f ∈ files_below d root ∧ passes prefix (blob_name root f.1) = true ∧
       info = entry_of root f.
Proof.
  unfold listing. rewrite list_elem_of_fmap. split.
  - intros (f & -> & [Hp Hf]%list_elem_of_filter). exists f.
    split; [done|]. split; [by apply Is_true_true|done].
  - intros (f & Hf & Hp & ->). exists f. split; [done|].
    apply list_elem_of_filter. split; [by apply Is_true_true|done].
Qed.

Lemma prefix_empty str : String.prefix "" str = true.
Proof. by destruct str. Qed.

(** What [ListBlobs] returns in every case: nothing, or the capped
    listing. *)
Lemma ListBlobs_results w a c prefix maxResults :
  (ListBlobs w a c prefix maxResults).1 = [] ∨
  (ListBlobs w a c prefix maxResults).1 =
    cap maxResults (listing (disk w) (containerPath (store w) a c) prefix).
Proof.
  destruct (os.resolve (disk w) (containerPath (store w) a c)) as [n|e] eqn:E.
  - right. by rewrite (ListBlobs_found _ _ _ _ _ n E).
  - left. unfold ListBlobs, os.Stat, filepath.Walk, os.Lstat. rewrite E. by destruct e.
Qed.

(** What [ListBlobs] returns is bounded by a positive [maxResults] and
    filtered by the prefix. *)
Lemma ListBlobs_bounded w a c prefix maxResults :
  ((0 < maxResults)%Z →
   (Z.of_nat (length (ListBlobs w a c prefix maxResults).1) ≤ maxResults)%Z) ∧
  (∀ info, info ∈ (ListBlobs w a c prefix maxResults).1 →
           String.prefix prefix (BlobInfo.Name info) = true).
Proof.
  destruct (ListBlobs_results w a c prefix maxResults) as [-> | ->].
  - split; [simpl; lia|]. by intros info ?%elem_of_nil.
  - split.
    + intros Hpos. rewrite length_cap. apply Z.ltb_lt in Hpos as Hpos'. rewrite Hpos'. lia.
    + intros info Hin. assert (info ∈ listing (disk w) (containerPath (store w) a c) prefix) as H.
      { revert Hin. unfold cap. destruct (0 <? maxResults)%Z; [|done].
        apply subseteq_take. }
      apply elem_of_listing in H as (f & _ & Hp & ->). simpl.
      unfold passes, filepath.HasPrefix in Hp. apply orb_true_iff in Hp as [He|Hp]; [|done].
      apply String.eqb_eq in He as ->. apply prefix_empty.
Qed.

(** [ListBlobs] never returns more than a positive [maxResults] entries,
    every entry it returns has a name that starts with the prefix, and it
    returns no entry together with an error. *)
Theorem list_blobs_bounds w a c prefix maxResults :
  ((0 < maxResults)%Z →
   (Z.of_nat (length (ListBlobs w a c prefix maxResults).1) ≤ maxResults)%Z) ∧
  (∀ info, info ∈ (ListBlobs w a c prefix maxResults).1 →
           String.prefix prefix (BlobInfo.Name info) = true) ∧
  ((ListBlobs w a c prefix maxResults).2 ≠ None → (ListBlobs w a c prefix maxResults).1 = []).
Proof.
  destruct (ListBlobs_bounded w a c prefix maxResults) as [H1 H2].
  split; [done|]. split; [done|].
  destruct (os.resolve (disk w) (containerPath (store w) a c)) as [n|e] eqn:E.
  - by rewrite (ListBlobs_found _ _ _ _ _ n E).
  - intros _. unfold ListBlobs, os.Stat, filepath.Walk, os.Lstat. rewrite E. by destruct e.
Qed.

Lemma list_blobs_bounds_witness :
  length (ListBlobs three_blobs "acct" "c1" "a/" 1).1 = 1 ∧
  (Z.of_nat (length (ListBlobs three_blobs "acct" "c1" "a/" 1).1) ≤ 1)%Z ∧
  (∀ info, info ∈ (ListBlobs three_blobs "acct" "c1" "a/" 1).1 →
           String.prefix "a/" (BlobInfo.Name info) = true) ∧
  (ListBlobs fresh "acct" "c1" "a/" 1).1 = [].
Proof.
  split; [vm_compute; reflexivity|].
  destruct (list_blobs_bounds three_blobs "acct" "c1" "a/" 1) as (H1 & H2 & _).
  split; [apply H1; lia|]. split; [exact H2|].
  destruct (list_blobs_bounds fresh "acct" "c1" "a/" 1) as (_ & _ & H3).
  apply H3. vm_compute. discriminate.
Defined.

(** A blob that was put is listed under its name and with its size, for
    every prefix of its name, when its name is made of plain components. *)
Theorem put_blob_then_list w a c b content contentType metadata w' prefix maxResults :
  valid_blob_name b = true →
  PutBlob w a c b content contentType metadata = (w', None) →
  String.prefix prefix b = true →
  (maxResults ≤ 0)%Z →
  (ListBlobs w' a c prefix maxResults).2 = None ∧
  BlobInfo.mk b "application/octet-stream" (Z.of_nat (length content)) ∅
    ∈ (ListBlobs w' a c prefix maxResults).1.
Proof.
  intros Hb Hput Hpre Hmax.
  pose proof (PutBlob_ancestors _ _ _ _ _ _ _ _ Hput) as [Hne Hanc].
  pose proof (PutBlob_stored _ _ _ _ _ _ _ _ Hput) as [_ Hfile].
  assert (baseDir (store w') = baseDir (store w)) as Hbase.
  { by apply PutBlob_Ok in Hput as (? & ? & _ & _ & _ & ? & _). }
  assert (containerPath (store w') a c = containerPath (store w) a c) as Hcp.
  { unfold containerPath. by rewrite Hbase. }
  assert (blobPath (store w') a c b = blobPath (store w) a c b) as Hbp.
  { unfold blobPath. by rewrite Hcp. }
  rewrite Hbp in Hfile. rewrite blobPath_valid in Hanc, Hfile, Hne by done.
  set (root := containerPath (store w) a c) in *.
  pose proof (split_sep_nonempty b) as Hsegs.
  assert (os.resolve (disk w') root = Ok os.Dir) as Hroot.
  { apply resolve_Ok.
    assert (root ≠ root ++ filepath.split_sep b) as Hrne.
    { intros E. apply (f_equal length) in E. rewrite length_app in E.
      destruct (filepath.split_sep b); [done|]. simpl in E. lia. }
    split; [|apply Hanc; [by apply prefix_app_r|done]].
    apply blocked_false. intros q Hq Hqne. unfold os.is_file.
    rewrite Hanc; [done|by apply prefix_app_r|]. intros ->.
    apply Hqne. apply prefix_same_length; [done|].
    apply prefix_length in Hq. rewrite length_app in *. lia. }
  rewrite (ListBlobs_found _ _ _ _ _ _ (eq_ind_r (λ r, os.resolve (disk w') r = _) Hroot Hcp)).
  rewrite Hcp. fold root. split; [done|]. simpl.
  unfold cap. assert ((0 <? maxResults)%Z = false) as -> by by apply Z.ltb_ge.
  apply elem_of_listing. exists (root ++ filepath.split_sep b, content).
  assert (blob_name root (root ++ filepath.split_sep b) = b) as Hname.
  { rewrite blob_name_below by done. apply concat_split_sep. }
  split; [|split].
  - apply elem_of_files_below. split; [by apply prefix_app_r|done].
  - simpl. rewrite Hname. unfold passes, filepath.HasPrefix. rewrite Hpre. apply orb_true_r.
  - unfold entry_of. simpl. by rewrite Hname.
Qed.
Lemma put_blob_then_list_witness :
  valid_blob_name "dir/f.txt" = true ∧
  String.prefix "dir/" "dir/f.txt" = true ∧
  (ListBlobs (PutBlob fresh "acct" "c1" "dir/f.txt" hello "text/plain" ∅).1 "acct" "c1" "dir/" 0).2
    = None ∧
  BlobInfo.mk "dir/f.txt" "application/octet-stream" 5 ∅
    ∈ (ListBlobs (PutBlob fresh "acct" "c1" "dir/f.txt" hello "text/plain" ∅).1 "acct" "c1" "dir/" 0).1.
Proof.
  split; [vm_compute; reflexivity|]. split; [vm_compute; reflexivity|].
  apply (put_blob_then_list fresh "acct" "c1" "dir/f.txt" hello "text/plain" ∅
           (PutBlob fresh "acct" "c1" "dir/f.txt" hello "text/plain" ∅).1 "dir/" 0).
  - vm_compute; reflexivity.
  - vm_compute; reflexivity.
  - vm_compute; reflexivity.
  - lia.
Defined.
End listing_properties.

(** ** Restarts, containers made and deleted, blobs and directories *)

Section lifecycle.
Implicit Types (w : world) (a c b : string) (p q : path).

(** The index lives in memory only: a store opened again on the same disk
    still returns the blob, but does not know its container, which can
    therefore not be deleted. *)
Theorem blobs_survive_restart w a c b content contentType metadata w1 dataDir w2 :
  baseDir (store w) = filepath.Join dataDir ["blob"] →
  PutBlob w a c b content contentType metadata = (w1, None) →
  NewFileBlobStore (disk w1) dataDir = Ok w2 →
  GetBlob w2 a c b =
    Ok (Blob.mk b c a content "application/octet-stream" (Z.of_nat (length content)) ∅) ∧
  ContainerExists w2 a c = (false, None) ∧
  DeleteContainer w2 a c = (w2, Some (ContainerDoesNotExist c)).
Proof.
  intros Hbase Hput. unfold NewFileBlobStore.
  destruct (os.MkdirAll _ _) as [d'|] eqn:E; [|done]. intros [= <-].
  pose proof (PutBlob_stored _ _ _ _ _ _ _ _ Hput) as [Hb Hl].
  assert (baseDir (store w1) = baseDir (store w)) as Hbase1.
  { by apply PutBlob_Ok in Hput as (? & ? & _ & _ & _ & ? & _). }
  unfold blobPath, containerPath in Hb, Hl. rewrite Hbase1, Hbase in Hb, Hl.
  split; [|split].
  - apply GetBlob_file; unfold blobPath, containerPath; simpl.
    + by rewrite (MkdirAll_blocked _ _ _ _ E).
    + by apply (MkdirAll_lookup_file _ _ _ _ _ E).
  - done.
  - done.
Qed.

Lemma blobs_survive_restart_witness :
  NewFileBlobStore (disk after_put) ["data"] = Ok (restarted after_put) ∧
  ContainerExists after_put "acct" "c1" = (true, None) ∧
  GetBlob (restarted after_put) "acct" "c1" "f.txt" =
    Ok (Blob.mk "f.txt" "c1" "acct" hello "application/octet-stream" 5 ∅) ∧
  ContainerExists (restarted after_put) "acct" "c1" = (false, None) ∧
  DeleteContainer (restarted after_put) "acct" "c1" =
    (restarted after_put, Some (ContainerDoesNotExist "c1")).
Proof.
  assert (NewFileBlobStore (disk after_put) ["data"] = Ok (restarted after_put)) as H
    by (vm_compute; reflexivity).
  split; [exact H|]. split; [vm_compute; reflexivity|].
  apply (blobs_survive_restart fresh "acct" "c1" "f.txt" hello "text/plain" ∅ after_put
           ["data"] (restarted after_put)).
  - vm_compute; reflexivity.
  - vm_compute; reflexivity.
  - exact H.
Defined.

(** For a container path strictly below the base directory of the store,
    [DeleteContainer] right after a successful [CreateContainer] succeeds,
    puts every answer of [ContainerExists] back to what it was and leaves
    nothing at or below the container path, also of what was there before
    the container was created. *)
Theorem create_then_delete_container w a c w1 :
  baseDir (store w) `prefix_of` containerPath (store w) a c →
  containerPath (store w) a c ≠ baseDir (store w) →
  CreateContainer w a c = (w1, None) →
  ∃ w2, DeleteContainer w1 a c = (w2, None) ∧
        (∀ a' c', ContainerExists w2 a' c' = ContainerExists w a' c') ∧
        (∀ q, containerPath (store w) a c `prefix_of` q → disk w2 !! q = None).
Proof.
  intros Hbelow Hstrict.
  unfold CreateContainer. destruct (index _ _) eqn:Hi; [done|].
  destruct (os.MkdirAll _ _) as [d1|] eqn:E; [|done]. intros [= <-].
  assert (os.blocked d1 (containerPath (store w) a c) = false) as Hb.
  { by apply MkdirAll_target, resolve_Ok in E as [? _]. }
  unfold DeleteContainer. cbn [store disk containers]. rewrite index_insert_eq. cbn [negb].
  change (containerPath {| baseDir := baseDir (store w); containers := _ |} a c)
    with (containerPath (store w) a c).
  destruct (os.RemoveAll d1 (containerPath (store w) a c)) as [d2|] eqn:E2.
  - eexists. split; [done|]. split.
    + intros a' c'. rewrite !ContainerExists_index. simpl. f_equal.
      destruct (decide (containerKey a c = containerKey a' c')) as [<-|Hne].
      * by rewrite index_delete_eq.
      * by rewrite index_delete_ne, index_insert_ne.
    + intros q Hq. simpl. apply RemoveAll_Ok in E2 as [_ H]. by rewrite H, decide_True.
  - unfold os.RemoveAll in E2. by rewrite Hb in E2.
Qed.

Lemma create_then_delete_container_witness :
  baseDir (store (restarted after_put))
    `prefix_of` containerPath (store (restarted after_put)) "acct" "c1" ∧
  containerPath (store (restarted after_put)) "acct" "c1" ≠ baseDir (store (restarted after_put)) ∧
  disk (restarted after_put) !! ["data"; "blob"; "acct"; "c1"; "f.txt"] = Some (os.File hello) ∧
  ∃ w2, DeleteContainer (CreateContainer (restarted after_put) "acct" "c1").1 "acct" "c1" = (w2, None) ∧
        (∀ a' c', ContainerExists w2 a' c' = ContainerExists (restarted after_put) a' c') ∧
        (∀ q, containerPath (store (restarted after_put)) "acct" "c1" `prefix_of` q →
              disk w2 !! q = None).
Proof.
  assert (baseDir (store (restarted after_put))
            `prefix_of` containerPath (store (restarted after_put)) "acct" "c1") as Hpre.
  { exists ["acct"; "c1"]. vm_compute. reflexivity. }
  assert (containerPath (store (restarted after_put)) "acct" "c1"
            ≠ baseDir (store (restarted after_put))) as Hne.
  { vm_compute. discriminate. }
  split; [exact Hpre|]. split; [exact Hne|]. split; [vm_compute; reflexivity|].
  apply (create_then_delete_container (restarted after_put) "acct" "c1"
           (CreateContainer (restarted after_put) "acct" "c1").1 Hpre Hne).
  vm_compute; reflexivity.
Defined.


End lifecycle.

(** ** Opening a store *)

Section opening.
Implicit Types (w : world) (d : os.fs) (p q : path).


End opening.

(** ** The HTTP adapter *)

Section adapter_properties.
Implicit Types (w : world) (r : Request) (a c b : string).

Lemma Contains_app_r (s1 str sub : string) :
  strings.Contains str sub = true → strings.Contains (s1 +:+ str) sub = true.
Proof.
  intros H. induction s1 as [|x s1 IH]; [done|]. simpl. rewrite IH. apply orb_true_r.
Qed.

Lemma Error_does_not_exist e :
  kind e = NotFound → strings.Contains (Error e) "does not exist" = true.
Proof.
  destruct e; simpl; try done.
  - intros _. by do 2 apply Contains_app_r.
  - intros _. by do 2 apply Contains_app_r.
  - by case_decide.
Qed.

Lemma Error_already_exists e :
  kind e = AlreadyExists → strings.Contains (Error e) "already exists" = true.
Proof.
  destruct e; simpl; try done.
  - intros _. by do 2 apply Contains_app_r.
  - by case_decide.
Qed.

Lemma DeleteBlob_then_GetBlob w a c b w' :
  DeleteBlob w a c b = (w', None) → GetBlob w' a c b = Fail (BlobDoesNotExist b).
Proof.
  unfold DeleteBlob. destruct (os.Remove _ _) as [d|e] eqn:E; [|by destruct (os.IsNotExist e)].
  intros [= <-]. apply Remove_Ok in E as (Hb & _ & ->).
  unfold GetBlob, os.ReadFile. simpl.
  assert (os.resolve (delete (blobPath (store w) a c b) (disk w)) (blobPath (store w) a c b)
          = Fail os.ENOENT) as ->; [|done].
  apply resolve_ENOENT. by rewrite blocked_delete_self, lookup_delete_eq.
Qed.

Lemma guard2_false r :
  String.eqb (URLParam r "account") "" || String.eqb (URLParam r "container") "" = false ↔
  URLParam r "account" ≠ "" ∧ URLParam r "container" ≠ "".
Proof. rewrite orb_false_iff, !String.eqb_neq. done. Qed.

Lemma guard3_false r :
  String.eqb (URLParam r "account") "" || String.eqb (URLParam r "container") ""
    || String.eqb (URLParam r "blobName") "" = false ↔
  URLParam r "account" ≠ "" ∧ URLParam r "container" ≠ "" ∧ URLParam r "blobName" ≠ "".
Proof. rewrite !orb_false_iff, !String.eqb_neq. tauto. Qed.

(** An upload answered with 201 can be downloaded: the download of the
    same account, container and blob name answers 200 with the body that
    was uploaded, under the fixed content type. *)
Theorem upload_then_download w r r' :
  StatusCode (handlePutBlob w r).2 = http.StatusCreated →
  URLParams r' = URLParams r →
  ∃ content,
    Body r = Ok content ∧
    handleGetBlob (handlePutBlob w r).1 r' =
      ((handlePutBlob w r).1,
       mkResponse http.StatusOK
         (BlobPayload (Blob.mk (URLParam r "blobName") (URLParam r "container")
                         (URLParam r "account") content "application/octet-stream"
                         (Z.of_nat (length content)) ∅))).
Proof.
  intros Hst Hparams. unfold handlePutBlob in *.
  destruct (_ || _) eqn:Hg; [done|].
  destruct (Body r) as [content|]; [|done]. exists content. split; [done|].
  destruct (PutBlob _ _ _ _ _ _ _) as [w' [e|]] eqn:Hput; [done|]. simpl.
  unfold handleGetBlob. unfold URLParam in *. rewrite Hparams, Hg.
  apply PutBlob_stored in Hput as [Hb Hl]. by rewrite (GetBlob_file _ _ _ _ _ Hb Hl).
Qed.

Lemma upload_then_download_witness :
  StatusCode (handlePutBlob fresh (request_for "acct" "c1" "f.txt")).2 = http.StatusCreated ∧
  ∃ content,
    Body (request_for "acct" "c1" "f.txt") = Ok content ∧
    handleGetBlob (handlePutBlob fresh (request_for "acct" "c1" "f.txt")).1
        (request_for "acct" "c1" "f.txt") =
      ((handlePutBlob fresh (request_for "acct" "c1" "f.txt")).1,
       mkResponse http.StatusOK
         (BlobPayload (Blob.mk "f.txt" "c1" "acct" content "application/octet-stream"
                         (Z.of_nat (length content)) ∅))).
Proof.
  split; [vm_compute; reflexivity|].
  apply (upload_then_download fresh (request_for "acct" "c1" "f.txt")
           (request_for "acct" "c1" "f.txt")).
  - vm_compute; reflexivity.
  - reflexivity.
Defined.

(** A container creation answered with 201 made the container; asking
    again answers 409 with the message of the store. *)
Theorem create_then_conflict w r :
  StatusCode (handleCreateContainer w r).2 = http.StatusCreated →
  let w' := (handleCreateContainer w r).1 in
  ContainerExists w' (URLParam r "account") (URLParam r "container") = (true, None) ∧
  handleCreateContainer w' r =
    (w', writeError http.StatusConflict "ContainerAlreadyExists"
           ("container " +:+ URLParam r "container" +:+ " already exists")).
Proof.
  unfold handleCreateContainer at 1 2. destruct (_ || _) eqn:Hg; [done|].
  destruct (CreateContainer _ _ _) as [w1 [e|]] eqn:Hc.
  { by destruct (strings.Contains _ _). }
  intros _. simpl.
  assert (index (containers (store w1))
            (containerKey (URLParam r "account") (URLParam r "container")) = true) as Hi.
  { revert Hc. unfold CreateContainer. destruct (index _ _); [done|].
    destruct (os.MkdirAll _ _); [|done]. intros [= <-]. simpl. apply index_insert_eq. }
  split; [by rewrite ContainerExists_index, Hi|].
  unfold handleCreateContainer. rewrite Hg. unfold CreateContainer. rewrite Hi.
  by rewrite (Error_already_exists (ContainerAlreadyExists _) eq_refl).
Qed.

Lemma create_then_conflict_witness :
  StatusCode (handleCreateContainer fresh (request_for "acct" "c1" "")).2 = http.StatusCreated ∧
  ContainerExists (handleCreateContainer fresh (request_for "acct" "c1" "")).1 "acct" "c1" =
    (true, None) ∧
  handleCreateContainer (handleCreateContainer fresh (request_for "acct" "c1" "")).1
      (request_for "acct" "c1" "") =
    ((handleCreateContainer fresh (request_for "acct" "c1" "")).1,
     writeError http.StatusConflict "ContainerAlreadyExists" "container c1 already exists").
Proof.
  split; [vm_compute; reflexivity|].
  apply (create_then_conflict fresh (request_for "acct" "c1" "")).
  vm_compute; reflexivity.
Defined.

(** What is missing is answered with 404 and the message of the store, and
    nothing changes: a blob at whose path nothing exists, for download and
    for deletion; a container the index does not record, for deletion; a
    container at whose path nothing exists, for listing. *)
Theorem missing_is_404 w r :
  URLParam r "account" ≠ "" → URLParam r "container" ≠ "" →
  let a := URLParam r "account" in
  let c := URLParam r "container" in
  let b := URLParam r "blobName" in
  (b ≠ "" → os.resolve (disk w) (blobPath (store w) a c b) = Fail os.ENOENT →
   handleGetBlob w r =
     (w, writeError http.StatusNotFound "BlobNotFound" ("blob " +:+ b +:+ " does not exist")) ∧
   handleDeleteBlob w r =
     (w, writeError http.StatusNotFound "BlobNotFound" ("blob " +:+ b +:+ " does not exist"))) ∧
  (index (containers (store w)) (containerKey a c) = false →
   handleDeleteContainer w r =
     (w, writeError http.StatusNotFound "ContainerNotFound"
           ("container " +:+ c +:+ " does not exist"))) ∧
  (os.resolve (disk w) (containerPath (store w) a c) = Fail os.ENOENT →
   handleListBlobs w r =
     (w, writeError http.StatusNotFound "ContainerNotFound"
           ("container " +:+ c +:+ " does not exist"))).
Proof.
  intros Ha Hc a c b.
  assert (String.eqb a "" || String.eqb c "" = false) as Hg2 by by apply guard2_false.
  split; [|split].
  - intros Hb Hres.
    assert (String.eqb a "" || String.eqb c "" || String.eqb b "" = false) as Hg3
      by by apply guard3_false.
    split.
    + unfold handleGetBlob. fold a c b. rewrite Hg3. unfold GetBlob, os.ReadFile.
      rewrite Hres. cbn -[Error strings.Contains]. by rewrite (Error_does_not_exist (BlobDoesNotExist _) eq_refl).
    + unfold handleDeleteBlob. fold a c b. rewrite Hg3. unfold DeleteBlob, os.Remove.
      rewrite Hres. cbn -[Error strings.Contains]. by rewrite (Error_does_not_exist (BlobDoesNotExist _) eq_refl).
  - intros Hi. unfold handleDeleteContainer. fold a c. rewrite Hg2.
    unfold DeleteContainer. rewrite Hi. cbn -[Error strings.Contains].
    by rewrite (Error_does_not_exist (ContainerDoesNotExist c) eq_refl).
  - intros Hres. unfold handleListBlobs. fold a c. rewrite Hg2.
    unfold ListBlobs, os.Stat. rewrite Hres. cbn -[Error strings.Contains].
    by rewrite (Error_does_not_exist (ContainerDoesNotExist c) eq_refl).
Qed.

Lemma missing_is_404_witness :
  handleGetBlob fresh (request_for "acct" "c1" "f.txt") =
    (fresh, writeError http.StatusNotFound "BlobNotFound" "blob f.txt does not exist") ∧
  handleDeleteBlob fresh (request_for "acct" "c1" "f.txt") =
    (fresh, writeError http.StatusNotFound "BlobNotFound" "blob f.txt does not exist") ∧
  handleDeleteContainer fresh (request_for "acct" "c1" "f.txt") =
    (fresh, writeError http.StatusNotFound "ContainerNotFound" "container c1 does not exist") ∧
  handleListBlobs fresh (request_for "acct" "c1" "f.txt") =
    (fresh, writeError http.StatusNotFound "ContainerNotFound" "container c1 does not exist").
Proof.
  destruct (missing_is_404 fresh (request_for "acct" "c1" "f.txt")) as (H1 & H2 & H3).
  - vm_compute; discriminate.
  - vm_compute; discriminate.
  - destruct H1 as [H1a H1b]; [vm_compute; discriminate|vm_compute; reflexivity|].
    split; [exact H1a|]. split; [exact H1b|].
    split; [apply H2|apply H3]; vm_compute; reflexivity.
Defined.

(** A deletion answered with 204 is final: the download of the same blob
    answers 404. *)
Theorem delete_then_download w r r' :
  StatusCode (handleDeleteBlob w r).2 = http.StatusNoContent →
  URLParams r' = URLParams r →
  handleGetBlob (handleDeleteBlob w r).1 r' =
    ((handleDeleteBlob w r).1,
     writeError http.StatusNotFound "BlobNotFound"
       ("blob " +:+ URLParam r "blobName" +:+ " does not exist")).
Proof.
  intros Hst Hparams. unfold handleDeleteBlob in *.
  destruct (_ || _) eqn:Hg; [done|].
  destruct (DeleteBlob _ _ _ _) as [w' [e|]] eqn:Hdel.
  { by destruct (strings.Contains _ _). }
  cbn [fst snd]. unfold handleGetBlob. unfold URLParam in *. rewrite Hparams, Hg.
  rewrite (DeleteBlob_then_GetBlob _ _ _ _ _ Hdel).
  by rewrite (Error_does_not_exist (BlobDoesNotExist _) eq_refl).
Qed.

Lemma delete_then_download_witness :
  StatusCode (handleGetBlob after_put (request_for "acct" "c1" "f.txt")).2 = http.StatusOK ∧
  StatusCode (handleDeleteBlob after_put (request_for "acct" "c1" "f.txt")).2 =
    http.StatusNoContent ∧
  handleGetBlob (handleDeleteBlob after_put (request_for "acct" "c1" "f.txt")).1
      (request_for "acct" "c1" "f.txt") =
    ((handleDeleteBlob after_put (request_for "acct" "c1" "f.txt")).1,
     writeError http.StatusNotFound "BlobNotFound" "blob f.txt does not exist").
Proof.
  split; [vm_compute; reflexivity|]. split; [vm_compute; reflexivity|].
  apply (delete_then_download after_put (request_for "acct" "c1" "f.txt")
           (request_for "acct" "c1" "f.txt")).
  - vm_compute; reflexivity.
  - reflexivity.
Defined.

(** The status codes a handler can answer with; an upload is never
    answered with 404 or 409, whatever the store reports. *)
Theorem handler_status_codes w r :
  StatusCode (handleCreateContainer w r).2 ∈ [201; 400; 409; 500]%Z ∧
  StatusCode (handleDeleteContainer w r).2 ∈ [204; 400; 404; 500]%Z ∧
  StatusCode (handlePutBlob w r).2 ∈ [201; 400; 500]%Z ∧
  StatusCode (handleGetBlob w r).2 ∈ [200; 400; 404; 500]%Z ∧
  StatusCode (handleDeleteBlob w r).2 ∈ [204; 400; 404; 500]%Z ∧
  StatusCode (handleListBlobs w r).2 ∈ [200; 400; 404; 500]%Z.
Proof.
  unfold handleCreateContainer, handleDeleteContainer, handlePutBlob, handleGetBlob,
    handleDeleteBlob, handleListBlobs.
  repeat split.
  - destruct (_ || _); [set_solver|].
    destruct (CreateContainer _ _ _) as [? [e|]]; [|set_solver].
    destruct (strings.Contains _ _); set_solver.
  - destruct (_ || _); [set_solver|].
    destruct (DeleteContainer _ _ _) as [? [e|]]; [|set_solver].
    destruct (strings.Contains _ _); set_solver.
  - destruct (_ || _); [set_solver|]. destruct (Body r); [|set_solver].
    destruct (PutBlob _ _ _ _ _ _ _) as [? [e|]]; set_solver.
  - destruct (_ || _); [set_solver|].
    destruct (GetBlob _ _ _ _) as [?|e]; [set_solver|].
    destruct (strings.Contains _ _); set_solver.
  - destruct (_ || _); [set_solver|].
    destruct (DeleteBlob _ _ _ _) as [? [e|]]; [|set_solver].
    destruct (strings.Contains _ _); set_solver.
  - destruct (_ || _); [set_solver|].
    destruct (ListBlobs _ _ _ _ _) as [? [e|]]; [|set_solver].
    destruct (strings.Contains _ _); set_solver.
Qed.

(** A listing answered with 200 echoes the prefix of the query, carries a
    [MaxResults] that is never negative, holds at most [MaxResults] blobs
    when that is positive, and only blobs whose name starts with the
    prefix. *)
Theorem listing_response w r w' result :
  handleListBlobs w r = (w', mkResponse http.StatusOK (ListPayload result)) →
  w' = w ∧
  Prefix result = Get (Query r) "prefix" ∧
  (0 ≤ MaxResults result)%Z ∧
  ((0 < MaxResults result)%Z → (Z.of_nat (length (Blobs result)) ≤ MaxResults result)%Z) ∧
  (∀ info, info ∈ Blobs result → String.prefix (Prefix result) (BlobInfo.Name info) = true).
Proof.
  unfold handleListBlobs. destruct (_ || _); [done|].
  set (maxResults := if String.eqb _ "" then _ else _).
  assert (0 ≤ maxResults)%Z as Hmax.
  { subst maxResults. destruct (String.eqb _ ""); [done|].
    destruct (strconv.Atoi _) as [val|]; [|done].
    destruct (0 <? val)%Z eqn:E; [|done]. apply Z.ltb_lt in E. lia. }
  pose proof (ListBlobs_bounded w (URLParam r "account") (URLParam r "container")
                (Get (Query r) "prefix") maxResults) as [Hlen Hpre].
  destruct (ListBlobs _ _ _ _ _) as [blobs [e|]].
  { by destruct (strings.Contains _ _). }
  intros [= <- <-]. simpl in *. done.
Qed.

Lemma listing_response_witness :
  handleListBlobs three_blobs (listing_request "acct" "c1" "a/" "1") =
    (three_blobs,
     mkResponse http.StatusOK
       (ListPayload (mkBlobListResult [BlobInfo.mk "a/x" "application/octet-stream" 5 ∅] "a/" 1))) ∧
  three_blobs = three_blobs ∧
  "a/" = Get (Query (listing_request "acct" "c1" "a/" "1")) "prefix" ∧
  (0 ≤ 1)%Z ∧
  ((0 < 1)%Z →
   (Z.of_nat (length [BlobInfo.mk "a/x" "application/octet-stream" 5 ∅]) ≤ 1)%Z) ∧
  (∀ info, info ∈ [BlobInfo.mk "a/x" "application/octet-stream" 5 ∅] →
           String.prefix "a/" (BlobInfo.Name info) = true).
Proof.
  assert (handleListBlobs three_blobs (listing_request "acct" "c1" "a/" "1") =
            (three_blobs,
             mkResponse http.StatusOK
               (ListPayload
                  (mkBlobListResult [BlobInfo.mk "a/x" "application/octet-stream" 5 ∅] "a/" 1))))
    as H by (vm_compute; reflexivity).
  split; [exact H|]. exact (listing_response _ _ _ _ H).
Defined.

(** The metadata taken from a request come from its [x-ms-meta-] headers
    only: every key is the lower-case header name without that prefix, and
    its value is the first value of the header. *)
Theorem request_metadata_sources (header : gmap string (list string)) k v :
  requestMetadata header !! k = Some v →
  ∃ key values,
    header !! key = Some (v :: values) ∧
    strings.HasPrefix (strings.ToLower key) "x-ms-meta-" = true ∧
    k = strings.TrimPrefix (strings.ToLower key) "x-ms-meta-".
Proof.
  unfold requestMetadata.
  apply (map_fold_weak_ind (λ res (m : gmap string (list string)),
    res !! k = Some v →
    ∃ key values, m !! key = Some (v :: values) ∧
      strings.HasPrefix (strings.ToLower key) "x-ms-meta-" = true ∧
      k = strings.TrimPrefix (strings.ToLower key) "x-ms-meta-")).
  - by rewrite lookup_empty.
  - intros key values m res Hnone IH Hres.
    assert (res !! k = Some v → ∃ key' values', <[key:=values]> m !! key' = Some (v :: values') ∧
              strings.HasPrefix (strings.ToLower key') "x-ms-meta-" = true ∧
              k = strings.TrimPrefix (strings.ToLower key') "x-ms-meta-") as Hold.
    { intros (key' & values' & Hl & ?)%IH. exists key', values'. split; [|done].
      rewrite lookup_insert_ne; [done|]. intros ->. congruence. }
    destruct (strings.HasPrefix (strings.ToLower key) "x-ms-meta-") eqn:Hp; [|by apply Hold].
    destruct values as [|v0 values]; [by apply Hold|].
    destruct (decide (strings.TrimPrefix (strings.ToLower key) "x-ms-meta-" = k)) as [<-|Hne].
    + rewrite lookup_insert_eq in Hres. injection Hres as ->.
      exists key, values. by rewrite lookup_insert_eq.
    + rewrite lookup_insert_ne in Hres by done. by apply Hold.
Qed.
Lemma request_metadata_sources_witness :
  requestMetadata upload_header !! "author" = Some "me" ∧
  ∃ key values,
    upload_header !! key = Some ("me" :: values) ∧
    strings.HasPrefix (strings.ToLower key) "x-ms-meta-" = true ∧
    "author" = strings.TrimPrefix (strings.ToLower key) "x-ms-meta-".
Proof.
  assert (requestMetadata upload_header !! "author" = Some "me") as H
    by (vm_compute; reflexivity).
  split; [exact H|]. exact (request_metadata_sources upload_header "author" "me" H).
Defined.
End adapter_properties.

(** ** The configuration *)

Section config_properties.
Implicit Types (env : gmap string string) (names : list string) (str : string).

Lemma enabled_fold_nonempty (acc l : list string) :
  Forall (λ s : string, s ≠ "") acc →
  Forall (λ s : string, s ≠ "")
    (foldl (λ enabled s,
              let s := strings.TrimSpace s in
              if negb (String.eqb s "") then enabled ++ [s] else enabled) acc l).
Proof.
  revert acc. induction l as [|x l IH]; intros acc Hacc; simpl; [done|].
  apply IH. destruct (String.eqb (strings.TrimSpace x) "") eqn:E; simpl; [done|].
  apply Forall_app. split; [done|]. apply Forall_singleton. by apply String.eqb_neq.
Qed.

Lemma enabled_of_nonempty_entries str : Forall (λ s, s ≠ "") (config.enabled_of str).
Proof. apply enabled_fold_nonempty. constructor. Qed.

(** Whatever the environment holds, [Load] returns a configuration that
    [Validate] accepts, with at least one enabled service, no empty service
    name and a log level that is not empty. *)
Theorem load_is_valid env :
  config.Validate (config.Load env) = None ∧
  config.EnabledServices (config.Load env) ≠ [] ∧
  Forall (λ s, s ≠ "") (config.EnabledServices (config.Load env)) ∧
  config.LogLevel (config.Load env) ≠ "".
Proof.
  unfold config.Load. cbv zeta.
  set (c0 := config.mkConfig 4566 "./data" ["blob"] "info").
  set (c1 := if negb (String.eqb (os.Getenv env "EDGE_PORT") "") then _ else c0).
  set (c2 := if negb (String.eqb (os.Getenv env "DATA_DIR") "") then _ else c1).
  set (c3 := if negb (String.eqb (os.Getenv env "ENABLED_SERVICES") "") then _ else c2).
  set (good := λ c : config.Config,
    (0 < config.EdgePort c < 65536)%Z ∧ config.DataDir c ≠ "" ∧
    config.EnabledServices c ≠ [] ∧ Forall (λ s, s ≠ "") (config.EnabledServices c) ∧
    config.LogLevel c ≠ "").
  assert (good c0) as H0.
  { unfold good, c0. simpl. split; [lia|]. split; [discriminate|]. split; [discriminate|].
    split; [apply Forall_singleton|]; discriminate. }
  assert (good c1) as H1.
  { clear c3 c2. subst c1. destruct (negb _); [|done]. destruct (strconv.Atoi _) as [port|]; [|done].
    destruct (_ && _) eqn:E; [|done]. apply andb_true_iff in E as [?%Z.ltb_lt ?%Z.ltb_lt].
    destruct H0 as (_ & ? & ? & ? & ?). by repeat split. }
  clearbody c1.
  assert (good c2) as H2.
  { clear c3. subst c2. destruct (negb _) eqn:E; [|done]. apply negb_true_iff, String.eqb_neq in E.
    destruct H1 as ([? ?] & _ & ? & ? & ?). by repeat split. }
  clearbody c2.
  assert (good c3) as H3.
  { subst c3. destruct (negb _); [|done].
    destruct (0 <? length _)%nat eqn:E; [|done]. apply Nat.ltb_lt in E.
    destruct H2 as ([? ?] & ? & _ & _ & ?). repeat split; try done; simpl.
    - intros En. rewrite En in E. simpl in E. lia.
    - apply enabled_of_nonempty_entries. }
  clearbody c3.
  assert (good (if negb (String.eqb (os.Getenv env "LOG_LEVEL") "")
                then config.mkConfig (config.EdgePort c3) (config.DataDir c3)
                       (config.EnabledServices c3) (os.Getenv env "LOG_LEVEL")
                else c3)) as H4.
  { destruct (negb _) eqn:E; [|done]. apply negb_true_iff, String.eqb_neq in E.
    destruct H3 as ([? ?] & ? & ? & ? & _). by repeat split. }
  destruct H4 as ([Hlo Hhi] & Hd & Hs & Hf & Hl). split; [|done].
  unfold config.Validate.
  assert ((config.EdgePort _ <=? 0)%Z = false) as -> by by apply Z.leb_gt.
  assert ((65536 <=? config.EdgePort _)%Z = false) as -> by by apply Z.leb_gt.
  simpl. by apply String.eqb_neq in Hd as ->.
Qed.

Lemma Split_nonempty str sep : strings.Split str sep ≠ [].
Proof.
  destruct str as [|x str]; simpl; [done|].
  destruct (Ascii.eqb x sep); [done|]. by destruct (strings.Split str sep).
Qed.

Lemma Split_app_sep (s1 s2 : string) sep :
  strings.Split (s1 +:+ String sep s2) sep = strings.Split s1 sep ++ strings.Split s2 sep.
Proof.
  induction s1 as [|x s1 IH]; simpl.
  - by rewrite Ascii.eqb_refl.
  - rewrite IH. destruct (Ascii.eqb x sep); [done|].
    pose proof (Split_nonempty s1 sep). by destruct (strings.Split s1 sep).
Qed.

Lemma Split_service_name str :
  config.no_comma_no_space str = true → strings.Split str "," = [str].
Proof.
  induction str as [|x str IH]; [done|]. simpl.
  intros [[[Hc _]%andb_true_iff _]%andb_true_iff Hrest]%andb_true_iff.
  apply negb_true_iff in Hc. rewrite Hc, IH by done. done.
Qed.

Lemma Split_concat names :
  names ≠ [] → Forall (λ s, config.service_name s = true) names →
  strings.Split (String.concat "," names) "," = names.
Proof.
  intros Hne HF. induction HF as [|n names Hn HF IH]; [done|].
  apply andb_true_iff in Hn as [_ Hn]. destruct names as [|m names].
  - simpl. by apply Split_service_name.
  - change (String.concat "," (n :: m :: names))
      with (n +:+ String "," (String.concat "," (m :: names))).
    rewrite Split_app_sep, IH by done. by rewrite Split_service_name.
Qed.

Lemma trim_right_service_name str :
  config.no_comma_no_space str = true → strings.trim_right str = str.
Proof.
  induction str as [|x str IH]; [done|]. simpl.
  intros [[[_ Hs]%andb_true_iff _]%andb_true_iff Hrest]%andb_true_iff.
  apply negb_true_iff in Hs. rewrite IH, Hs by done. by destruct str.
Qed.

Lemma TrimSpace_service_name str :
  config.no_comma_no_space str = true → strings.TrimSpace str = str.
Proof.
  intros H. unfold strings.TrimSpace.
  assert (strings.trim_left str = str) as ->; [|by apply trim_right_service_name].
  destruct str as [|x str]; [done|]. simpl in *.
  apply andb_true_iff in H as [[[_ Hs]%andb_true_iff _]%andb_true_iff _].
  apply negb_true_iff in Hs. by rewrite Hs.
Qed.

Lemma enabled_fold_names (acc names : list string) :
  Forall (λ s, config.service_name s = true) names →
  foldl (λ enabled s,
           let s := strings.TrimSpace s in
           if negb (String.eqb s "") then enabled ++ [s] else enabled) acc names
  = acc ++ names.
Proof.
  intros HF. revert acc.
  induction HF as [|n names Hn HF IH]; intros acc; simpl; [by rewrite app_nil_r|].
  apply andb_true_iff in Hn as [Hn1 Hn2]. rewrite TrimSpace_service_name, Hn1 by done.
  rewrite IH. by rewrite <-app_assoc.
Qed.

Lemma enabled_of_concat names :
  names ≠ [] → Forall (λ s, config.service_name s = true) names →
  config.enabled_of (String.concat "," names) = names.
Proof.
  intros Hne HF. unfold config.enabled_of. rewrite Split_concat by done.
  by rewrite enabled_fold_names.
Qed.

Lemma IsServiceEnabled_loop_elem names str :
  config.IsServiceEnabled_loop names str = true ↔ str ∈ names.
Proof.
  induction names as [|n names IH]; simpl.
  - split; [done|]. by intros ?%elem_of_nil.
  - rewrite elem_of_cons. destruct (String.eqb n str) eqn:E.
    + apply String.eqb_eq in E as ->. split; auto.
    + apply String.eqb_neq in E. rewrite IH. split; [auto|]. intros [->|]; done.
Qed.

(** ENABLED_SERVICES round trip: a list of service names joined by commas
    is read back as that list, and a service is enabled exactly when it is
    in the list. *)
Theorem enabled_services_round_trip env names :
  names ≠ [] → Forall (λ s, config.service_name s = true) names →
  env !! "ENABLED_SERVICES" = Some (String.concat "," names) →
  config.EnabledServices (config.Load env) = names ∧
  (∀ str, config.IsServiceEnabled (config.Load env) str = true ↔ str ∈ names).
Proof.
  intros Hne HF Henv.
  assert (config.EnabledServices (config.Load env) = names) as Hs.
  { unfold config.Load. cbv zeta.
    assert (os.Getenv env "ENABLED_SERVICES" = String.concat "," names) as ->.
    { unfold os.Getenv. by rewrite Henv. }
    rewrite enabled_of_concat by done.
    assert (String.eqb (String.concat "," names) "" = false) as ->.
    { apply String.eqb_neq. destruct HF as [|n names Hn HF]; [done|].
      apply andb_true_iff in Hn as [Hn _]. apply negb_true_iff, String.eqb_neq in Hn.
      destruct n; [done|]. by destruct names. }
    assert ((0 <? length names)%nat = true) as ->.
    { apply Nat.ltb_lt. destruct names; [done|]. simpl. lia. }
    simpl. by destruct (negb _). }
  split; [done|]. intros str. unfold config.IsServiceEnabled. rewrite Hs.
  apply IsServiceEnabled_loop_elem.
Qed.
Lemma enabled_services_round_trip_witness :
  Forall (λ s, config.service_name s = true) ["blob"; "queue"] ∧
  config.EnabledServices (config.Load services_env) = ["blob"; "queue"] ∧
  (∀ str, config.IsServiceEnabled (config.Load services_env) str = true ↔
          str ∈ ["blob"; "queue"]).
Proof.
  assert (Forall (λ s, config.service_name s = true) ["blob"; "queue"]) as HF
    by (repeat constructor).
  split; [exact HF|].
  apply (enabled_services_round_trip services_env ["blob"; "queue"]).
  - discriminate.
  - exact HF.
  - vm_compute; reflexivity.
Defined.
End config_properties.
